(** * MoodMirror: the mood-journal pipeline of [src/App.tsx]

    A shallow embedding of the state-handling code of the [App] component:
    the persisted mood history and weekly summaries, the aggregation done
    before a weekly summary is requested, the two [useEffect] triggers, and
    the four asynchronous handlers that talk to the language-model gateway
    ([analyzeMood], [generatePersonalizedContent], [generateWeeklySummary],
    [generatePatternInsights]).  The buttons of the page and the chat demo
    of [components/HeroSection.tsx] come after the handlers.

    Conventions.
    - A JavaScript array is a [list]; [a.slice(0, n)] is [firstn n a].
    - A [number] holding a time value (milliseconds since the epoch) is a
      [Z]; a [number] read out of a parsed JSON answer is a [Q].
    - A [Record<string, number>] built with [acc[k] = ...] is an association
      list in creation order, and [Object.entries] applies the property
      order of ECMAScript (array-index keys first, ascending, then the other
      keys in creation order).
    - An [async] function is cut at its [await]: the part before it issues a
      request that is kept in the state, the part after it consumes the
      answer of the gateway.  Every handler reads the state current at the
      time it runs (the render is committed between two events). *)

From Stdlib Require Import ZArith QArith List String Ascii Bool Arith Lia.
From Stdlib Require Import DecimalString Sorted.
From Stdlib Require Import DecimalPos DecimalZ.
Import ListNotations.

Set Implicit Arguments.
Local Close Scope Q_scope.
Local Open Scope nat_scope.

(* ------------------------------------------------------------------ *)
(** ** JavaScript primitives used by the component *)

Module Js.

(** [a.slice(0, n)] for [n >= 0]. *)
Definition slice0 {A : Type} (n : nat) (a : list A) : list A := firstn n a.

(** White space removed by [String.prototype.trim], restricted to the
    one-byte characters (TAB, LF, VT, FF, CR, SP). *)
Definition isWhiteSpace (c : ascii) : bool :=
  let n := nat_of_ascii c in
  ((9 <=? n) && (n <=? 13)) || (n =? 32).

Fixpoint allWhiteSpace (s : string) : bool :=
  match s with
  | EmptyString => true
  | String c s' => isWhiteSpace c && allWhiteSpace s'
  end.

(** [!input.trim()]: the trimmed string is empty. *)
Definition trimIsEmpty (s : string) : bool := allWhiteSpace s.

(** [n.toString()] for an integral number. *)
Definition toString (n : Z) : string := NilZero.string_of_int (Z.to_int n).

(** *** Plain objects used as string-keyed maps *)

Definition isDigit (c : ascii) : bool :=
  let n := nat_of_ascii c in (48 <=? n) && (n <=? 57).

Definition digitValue (c : ascii) : N := N.of_nat (nat_of_ascii c - 48).

Fixpoint digitsValue (acc : N) (s : string) : option N :=
  match s with
  | EmptyString => Some acc
  | String c s' =>
      if isDigit c then digitsValue (10 * acc + digitValue c) s' else None
  end.

(** The canonical numeric strings of the integers [0 .. 2^32 - 2]: the
    property keys that ECMAScript calls array indices. *)
Definition arrayIndex (k : string) : option N :=
  match k with
  | EmptyString => None
  | String c rest =>
      if (nat_of_ascii c =? 48) then
        match rest with EmptyString => Some 0%N | _ => None end
      else if Nat.leb (String.length k) 10 then
        match digitsValue 0 k with
        | Some v => if (v <=? 4294967294)%N then Some v else None
        | None => None
        end
      else None
  end.

Definition isArrayIndex (k : string) : bool :=
  match arrayIndex k with Some _ => true | None => false end.

(** Names that every object inherits from [Object.prototype]; reading
    them on [{}] does not give [undefined]. *)
Definition objectPrototypeNames : list string :=
  [ "constructor"; "hasOwnProperty"; "isPrototypeOf";
    "propertyIsEnumerable"; "toLocaleString"; "toString"; "valueOf";
    "__proto__"; "__defineGetter__"; "__defineSetter__";
    "__lookupGetter__"; "__lookupSetter__" ]%string.

Definition isObjectPrototypeName (k : string) : bool :=
  existsb (String.eqb k) objectPrototypeNames.

(** An object literal [{}] filled by assignments: its own properties in
    creation order. *)
Definition object (V : Type) : Type := list (string * V).

Fixpoint get {V : Type} (o : object V) (k : string) : option V :=
  match o with
  | [] => None
  | (k', v) :: o' => if String.eqb k k' then Some v else get o' k
  end.

(** [o[k] = v]: an existing property keeps its place, a new one is
    created after all the others. *)
Fixpoint set {V : Type} (o : object V) (k : string) (v : V) : object V :=
  match o with
  | [] => [(k, v)]
  | (k', v') :: o' =>
      if String.eqb k k' then (k', v) :: o' else (k', v') :: set o' k v
  end.

Fixpoint insertIndexKey {V : Type} (p : N * (string * V))
    (l : list (N * (string * V))) : list (N * (string * V)) :=
  match l with
  | [] => [p]
  | q :: l' => if (fst p <=? fst q)%N then p :: q :: l' else q :: insertIndexKey p l'
  end.

Definition indexProperties {V : Type} (o : object V) : list (N * (string * V)) :=
  fold_right
    (fun kv acc =>
       match arrayIndex (fst kv) with
       | Some i => insertIndexKey (i, kv) acc
       | None => acc
       end) [] o.

(** [Object.entries(o)]: array-index keys in ascending numeric order,
    then the string keys in creation order. *)
Definition entries {V : Type} (o : object V) : list (string * V) :=
  map snd (indexProperties o)
    ++ filter (fun kv => negb (isArrayIndex (fst kv))) o.

(** [a.sort(cmp)]: the sort of ECMAScript is stable, so with a consistent
    comparator its result is the one of insertion sort. [cmp x y <= 0]
    keeps [x] before [y]. *)
Fixpoint sortInsert {A : Type} (cmp : A -> A -> Z) (x : A) (l : list A) : list A :=
  match l with
  | [] => [x]
  | y :: l' => if (cmp x y <=? 0)%Z then x :: y :: l' else y :: sortInsert cmp x l'
  end.

Definition sort {A : Type} (cmp : A -> A -> Z) (a : list A) : list A :=
  fold_right (sortInsert cmp) [] a.

End Js.

(* ------------------------------------------------------------------ *)
(** ** Data model (the three interfaces of [App.tsx]) *)

Inductive InputMethod : Type := TextInput | VoiceInput | PhotoInput.

Record MoodEntry : Type := mkMoodEntry {
  id : string;
  timestamp : Z;
  text : string;
  mood : string;
  confidence : Q;
  content : option string;
  inputMethod : InputMethod
}.

Record WeeklySummary : Type := mkWeeklySummary {
  weekStart : Z;
  weekEnd : Z;
  entries : list MoodEntry;
  dominantMood : string;
  moodDistribution : Js.object nat;
  averageConfidence : Q;
  insights : list string;
  recommendations : list string
}.

Record PatternInsight : Type := mkPatternInsight {
  pattern : string;
  frequency : Q;
  description : string;
  recommendation : string;
  timeframe : string
}.

(* ------------------------------------------------------------------ *)
(** ** Entry Store and Summary Store updates *)

(** The updater passed to [setMoodHistory] in [analyzeMood]:
    [current => [moodEntry, ...current].slice(0, 50)]. *)
Definition appendEntry (moodEntry : MoodEntry) (current : list MoodEntry)
  : list MoodEntry :=
  Js.slice0 50 (moodEntry :: current).

(** The updater passed to [setWeeklySummaries]:
    [current => [summary, ...current].slice(0, 12)]. *)
Definition appendSummary (summary : WeeklySummary) (current : list WeeklySummary)
  : list WeeklySummary :=
  Js.slice0 12 (summary :: current).

(** The updater passed to [setMoodHistory] in [generatePersonalizedContent]:
    [current.map(entry => entry.id === id ? { ...entry, content } : entry)]. *)
Definition withContent (c : string) (entry : MoodEntry) : MoodEntry :=
  mkMoodEntry (id entry) (timestamp entry) (text entry) (mood entry)
    (confidence entry) (Some c) (inputMethod entry).

Definition patchContent (entryId : string) (c : string) (current : list MoodEntry)
  : list MoodEntry :=
  map (fun entry => if String.eqb (id entry) entryId then withContent c entry else entry)
    current.

(** A run of appends, oldest submission first. *)
Definition appendAll (submitted : list MoodEntry) (store : list MoodEntry)
  : list MoodEntry :=
  fold_left (fun current e => appendEntry e current) submitted store.

(* ------------------------------------------------------------------ *)
(** ** Aggregation *)

(** The reducer of [moodCounts] and [moodDistribution]:
    [(acc, entry) => { acc[entry.mood] = (acc[entry.mood] || 0) + 1; return acc }].
    Reading [acc[k]] gives [undefined] for a missing key as long as [k] is
    not one of [Js.objectPrototypeNames]; the statements on the
    distribution and on the dominant mood exclude those keys, and the
    other invariants of the runs do not depend on what the distribution
    holds. *)
Definition countMood (acc : Js.object nat) (entry : MoodEntry) : Js.object nat :=
  Js.set acc (mood entry)
    (match Js.get acc (mood entry) with Some n => n | None => 0 end + 1).

(** [entries.reduce(countMood, {})]. *)
Definition moodCountsOf (es : list MoodEntry) : Js.object nat :=
  fold_left countMood es [].

(** The comparator [(a, b) => b[1] - a[1]]. *)
Definition byCountDescending (a b : string * nat) : Z :=
  (Z.of_nat (snd b) - Z.of_nat (snd a))%Z.

(** [Object.entries(moodDistribution).sort((a, b) => b[1] - a[1])[0][0]];
    [None] stands for the [TypeError] raised on an empty distribution. *)
Definition dominantMoodOf (distribution : Js.object nat) : option string :=
  match Js.sort byCountDescending (Js.entries distribution) with
  | [] => None
  | first :: _ => Some (fst first)
  end.

(** [weekEntries.reduce((sum, entry) => sum + entry.confidence, 0) / weekEntries.length],
    in exact arithmetic. *)
Definition averageConfidenceOf (weekEntries : list MoodEntry) : Q :=
  (fold_left (fun sum entry => sum + confidence entry) weekEntries 0
    / inject_Z (Z.of_nat (List.length weekEntries)))%Q.

Inductive Trend : Type := Positive | Concerning | Mixed.

Definition positiveMoods : list string :=
  ["happy"; "excited"; "calm"; "motivated"]%string.

(** [list.includes(s)] on strings. *)
Definition includes (l : list string) (s : string) : bool :=
  existsb (String.eqb s) l.

(** [getMoodTrend]; [None] is the [null] returned for a short history. *)
Definition getMoodTrend (moodHistory : list MoodEntry) : option Trend :=
  if (List.length moodHistory <? 2)%nat then None
  else
    let recent := Js.slice0 5 moodHistory in
    let positiveCount :=
      List.length (filter (fun entry => includes positiveMoods (mood entry)) recent) in
    Some (if (3 <=? positiveCount)%nat then Positive
          else if (positiveCount <=? 1)%nat then Concerning
          else Mixed).

(* ------------------------------------------------------------------ *)
(** ** Component state, gateway answers and in-flight requests *)

(** Outcome of [await spark.llm(...)] followed, where the code does it, by
    [JSON.parse] and the reads of the fields of the parsed value. *)
Inductive Answer (A : Type) : Type :=
| Rejected : Answer A      (* the promise rejects: network error, non-2xx *)
| Malformed : Answer A     (* [JSON.parse] or a field read throws *)
| Parsed : A -> Answer A.

Arguments Rejected {A}.
Arguments Malformed {A}.

(** [{ mood, confidence, reasoning }] as read by [analyzeMood]. *)
Record Analysis : Type := mkAnalysis {
  analysisMood : string;
  analysisConfidence : Q
}.

(** [{ insights, recommendations }] as read by [generateWeeklySummary]. *)
Record SummaryAnalysis : Type := mkSummaryAnalysis {
  analysisInsights : list string;
  analysisRecommendations : list string
}.

(** The parsed answer of the pattern request, split by [Array.isArray]. *)
Inductive InsightsJson : Type :=
| InsightsArray : list PatternInsight -> InsightsJson
| NotAnArray : InsightsJson.

(** Calls to [toast]. *)
Inductive Notification : Type :=
| EnterSomeText                      (* toast.error('Please enter some text to analyze') *)
| MoodDetected : string -> Q -> Notification
| FailedToAnalyze                    (* toast.error('Failed to analyze mood. Please try again.') *)
| SummaryGenerated.                  (* toast.success('Weekly summary generated!') *)

Definition isErrorToast (n : Notification) : bool :=
  match n with
  | EnterSomeText | FailedToAnalyze => true
  | MoodDetected _ _ | SummaryGenerated => false
  end.

(** Calls to [console.error]. *)
Inductive LogLine : Type :=
| MoodAnalysisError
| ContentGenerationError
| WeeklySummaryError
| PatternInsightsError
| InvalidInsightsFormat.

(** What [generateWeeklySummary] has computed when it awaits the gateway. *)
Record SummaryDraft : Type := mkSummaryDraft {
  draftWeekStart : Z;
  draftWeekEnd : Z;
  draftEntries : list MoodEntry;
  draftDominantMood : string;
  draftDistribution : Js.object nat;
  draftAverageConfidence : Q
}.

(** What [generatePatternInsights] has put in its prompt. *)
Record InsightsContext : Type := mkInsightsContext {
  contextEntries : list (string * Z * string);
  contextCounts : Js.object nat
}.

Record State : Type := mkState {
  moodHistory : list MoodEntry;             (* useKV('mood-history', []) *)
  weeklySummaries : list WeeklySummary;     (* useKV('weekly-summaries', []) *)
  currentInput : string;
  isAnalyzing : bool;
  currentMood : option MoodEntry;
  patternInsights : list PatternInsight;
  isGeneratingInsights : bool;
  toasts : list Notification;               (* newest first *)
  console : list LogLine;                   (* newest first *)
  classifyRequests : list (string * InputMethod);
  contentRequests : list MoodEntry;
  summaryRequests : list SummaryDraft;
  insightRequests : list InsightsContext
}.

Definition initialState : State :=
  mkState [] [] EmptyString false None [] false [] [] [] [] [] [].

Definition setMoodHistory (f : list MoodEntry -> list MoodEntry) (s : State) : State :=
  mkState (f (moodHistory s)) (weeklySummaries s) (currentInput s) (isAnalyzing s)
    (currentMood s) (patternInsights s) (isGeneratingInsights s) (toasts s)
    (console s) (classifyRequests s) (contentRequests s) (summaryRequests s)
    (insightRequests s).

Definition setWeeklySummaries (f : list WeeklySummary -> list WeeklySummary)
    (s : State) : State :=
  mkState (moodHistory s) (f (weeklySummaries s)) (currentInput s) (isAnalyzing s)
    (currentMood s) (patternInsights s) (isGeneratingInsights s) (toasts s)
    (console s) (classifyRequests s) (contentRequests s) (summaryRequests s)
    (insightRequests s).

Definition setCurrentInput (v : string) (s : State) : State :=
  mkState (moodHistory s) (weeklySummaries s) v (isAnalyzing s)
    (currentMood s) (patternInsights s) (isGeneratingInsights s) (toasts s)
    (console s) (classifyRequests s) (contentRequests s) (summaryRequests s)
    (insightRequests s).

Definition setIsAnalyzing (v : bool) (s : State) : State :=
  mkState (moodHistory s) (weeklySummaries s) (currentInput s) v
    (currentMood s) (patternInsights s) (isGeneratingInsights s) (toasts s)
    (console s) (classifyRequests s) (contentRequests s) (summaryRequests s)
    (insightRequests s).

Definition setCurrentMood (f : option MoodEntry -> option MoodEntry) (s : State)
  : State :=
  mkState (moodHistory s) (weeklySummaries s) (currentInput s) (isAnalyzing s)
    (f (currentMood s)) (patternInsights s) (isGeneratingInsights s) (toasts s)
    (console s) (classifyRequests s) (contentRequests s) (summaryRequests s)
    (insightRequests s).

Definition setPatternInsights (v : list PatternInsight) (s : State) : State :=
  mkState (moodHistory s) (weeklySummaries s) (currentInput s) (isAnalyzing s)
    (currentMood s) v (isGeneratingInsights s) (toasts s)
    (console s) (classifyRequests s) (contentRequests s) (summaryRequests s)
    (insightRequests s).

Definition setIsGeneratingInsights (v : bool) (s : State) : State :=
  mkState (moodHistory s) (weeklySummaries s) (currentInput s) (isAnalyzing s)
    (currentMood s) (patternInsights s) v (toasts s)
    (console s) (classifyRequests s) (contentRequests s) (summaryRequests s)
    (insightRequests s).

Definition toast (n : Notification) (s : State) : State :=
  mkState (moodHistory s) (weeklySummaries s) (currentInput s) (isAnalyzing s)
    (currentMood s) (patternInsights s) (isGeneratingInsights s) (n :: toasts s)
    (console s) (classifyRequests s) (contentRequests s) (summaryRequests s)
    (insightRequests s).

Definition consoleError (l : LogLine) (s : State) : State :=
  mkState (moodHistory s) (weeklySummaries s) (currentInput s) (isAnalyzing s)
    (currentMood s) (patternInsights s) (isGeneratingInsights s) (toasts s)
    (l :: console s) (classifyRequests s) (contentRequests s) (summaryRequests s)
    (insightRequests s).

Definition setClassifyRequests (f : list (string * InputMethod) -> list (string * InputMethod))
    (s : State) : State :=
  mkState (moodHistory s) (weeklySummaries s) (currentInput s) (isAnalyzing s)
    (currentMood s) (patternInsights s) (isGeneratingInsights s) (toasts s)
    (console s) (f (classifyRequests s)) (contentRequests s) (summaryRequests s)
    (insightRequests s).

Definition setContentRequests (f : list MoodEntry -> list MoodEntry) (s : State)
  : State :=
  mkState (moodHistory s) (weeklySummaries s) (currentInput s) (isAnalyzing s)
    (currentMood s) (patternInsights s) (isGeneratingInsights s) (toasts s)
    (console s) (classifyRequests s) (f (contentRequests s)) (summaryRequests s)
    (insightRequests s).

Definition setSummaryRequests (f : list SummaryDraft -> list SummaryDraft)
    (s : State) : State :=
  mkState (moodHistory s) (weeklySummaries s) (currentInput s) (isAnalyzing s)
    (currentMood s) (patternInsights s) (isGeneratingInsights s) (toasts s)
    (console s) (classifyRequests s) (contentRequests s) (f (summaryRequests s))
    (insightRequests s).

Definition setInsightRequests (f : list InsightsContext -> list InsightsContext)
    (s : State) : State :=
  mkState (moodHistory s) (weeklySummaries s) (currentInput s) (isAnalyzing s)
    (currentMood s) (patternInsights s) (isGeneratingInsights s) (toasts s)
    (console s) (classifyRequests s) (contentRequests s) (summaryRequests s)
    (f (insightRequests s)).

(** A request is added behind the ones already waiting. *)
Definition enqueue {A : Type} (x : A) (l : list A) : list A := l ++ [x].

(** The requests left once the [i]-th has been answered. *)
Fixpoint dropNth {A : Type} (i : nat) (l : list A) : list A :=
  match l, i with
  | [], _ => []
  | _ :: l', O => l'
  | x :: l', S i' => x :: dropNth i' l'
  end.

(** What can happen to the component: the text area changes, a handler is
    called from a button, an effect runs, or the gateway answers the
    [i]-th waiting request of one kind.  Clock readings ([Date.now()],
    [new Date()]) come with the event that makes them.  An effect is an
    event like the others, so the runs below include every schedule of the
    effects, those of React among them. *)
Inductive Event : Type :=
| InputChanged (v : string)
| CallAnalyzeMood (input : string) (method : InputMethod)
| ClassifyAnswered (i : nat) (answer : Answer Analysis) (idClock tsClock : Z)
| ContentAnswered (i : nat) (answer : Answer string)
| HistoryLengthChanged
| HistoryChanged (effectClock callClock : Z)
| CallGeneratePatternInsights
| InsightsAnswered (i : nat) (answer : Answer InsightsJson)
| CallGenerateWeeklySummary (now : Z)
| SummaryAnswered (i : nat) (answer : Answer SummaryAnalysis).

(* ------------------------------------------------------------------ *)
(** ** The handlers of [App] *)

Section App.

Local Open Scope Z_scope.

(** Local time minus UTC, in milliseconds; constant over the period that
    is looked at (no daylight-saving change inside it). *)
Variable tz : Z.

Definition msPerDay : Z := 24 * 60 * 60 * 1000.

(** The literal [7 * 24 * 60 * 60 * 1000]. *)
Definition sevenDays : Z := 7 * 24 * 60 * 60 * 1000.

(** Day number and time within the day of the local time of [t]. *)
Definition dayNumber (t : Z) : Z := (t + tz) / msPerDay.
Definition timeWithinDay (t : Z) : Z := (t + tz) mod msPerDay.

(** [d.getDay()]: 0 is Sunday; day 0 of the epoch was a Thursday. *)
Definition getDay (t : Z) : Z := (dayNumber t + 4) mod 7.

(** [d.setDate(d.getDate() - k)]: the local date moves back by [k] days and
    the local time within the day is kept; the result is the new time
    value. *)
Definition setDateBack (t : Z) (k : Z) : Z :=
  (dayNumber t - k) * msPerDay + timeWithinDay t - tz.

(** [getWeekStart]. *)
Definition getWeekStart (date : Z) : Z :=
  let d := date in
  let day := getDay d in
  setDateBack d day.

(** *** [generatePatternInsights] *)

Definition generatePatternInsights (s : State) : State :=
  if isGeneratingInsights s then s
  else
    let s := setIsGeneratingInsights true s in
    let recentEntries := Js.slice0 20 (moodHistory s) in
    let moodCounts := moodCountsOf recentEntries in
    let shown :=
      map (fun e => (mood e, timestamp e, substring 0 100 (text e))) recentEntries in
    setInsightRequests (enqueue (mkInsightsContext shown moodCounts)) s.

(** The rest of [generatePatternInsights], from the [await] on. *)
Definition generatePatternInsightsResume (answer : Answer InsightsJson) (s : State)
  : State :=
  let s :=
    match answer with
    | Parsed (InsightsArray found) => setPatternInsights found s
    | Parsed NotAnArray =>
        setPatternInsights [] (consoleError InvalidInsightsFormat s)
    | Rejected | Malformed =>
        setPatternInsights [] (consoleError PatternInsightsError s)
    end in
  setIsGeneratingInsights false s.

(** *** [generateWeeklySummary] *)

Definition inWeek (weekStart weekEnd : Z) (entry : MoodEntry) : bool :=
  (timestamp entry >=? weekStart) && (timestamp entry <? weekEnd).

Definition generateWeeklySummary (now : Z) (s : State) : State :=
  let weekStart := getWeekStart (now - sevenDays) in
  let weekEnd := weekStart + sevenDays in
  let weekEntries := filter (inWeek weekStart weekEnd) (moodHistory s) in
  if (List.length weekEntries <? 3)%nat then s
  else
    let moodDistribution := moodCountsOf weekEntries in
    match dominantMoodOf moodDistribution with
    | None => consoleError WeeklySummaryError s
    | Some dominantMood =>
        let averageConfidence := averageConfidenceOf weekEntries in
        setSummaryRequests
          (enqueue (mkSummaryDraft weekStart weekEnd weekEntries dominantMood
                      moodDistribution averageConfidence)) s
    end.

(** The rest of [generateWeeklySummary], from the [await] on. *)
Definition generateWeeklySummaryResume (draft : SummaryDraft)
    (answer : Answer SummaryAnalysis) (s : State) : State :=
  match answer with
  | Parsed analysis =>
      let summary :=
        mkWeeklySummary (draftWeekStart draft) (draftWeekEnd draft)
          (draftEntries draft) (draftDominantMood draft) (draftDistribution draft)
          (draftAverageConfidence draft)
          (analysisInsights analysis) (analysisRecommendations analysis) in
      let s := setWeeklySummaries (appendSummary summary) s in
      toast SummaryGenerated s
  | Rejected | Malformed => consoleError WeeklySummaryError s
  end.

(** *** [generatePersonalizedContent] *)

Definition generatePersonalizedContent (moodEntry : MoodEntry) (s : State) : State :=
  setContentRequests (enqueue moodEntry) s.

(** The rest of [generatePersonalizedContent]; its answer is used as text
    and is not parsed. *)
Definition generatePersonalizedContentResume (moodEntry : MoodEntry)
    (answer : Answer string) (s : State) : State :=
  match answer with
  | Parsed c =>
      let s := setCurrentMood (option_map (withContent c)) s in
      setMoodHistory (patchContent (id moodEntry) c) s
  | Rejected | Malformed => consoleError ContentGenerationError s
  end.

(** *** [analyzeMood] *)

Definition analyzeMood (input : string) (method : InputMethod) (s : State) : State :=
  if Js.trimIsEmpty input then toast EnterSomeText s
  else
    let s := setIsAnalyzing true s in
    setClassifyRequests (enqueue (input, method)) s.

(** The rest of [analyzeMood], from the [await] on. *)
Definition analyzeMoodResume (input : string) (method : InputMethod)
    (answer : Answer Analysis) (idClock tsClock : Z) (s : State) : State :=
  let s :=
    match answer with
    | Parsed analysis =>
        let moodEntry :=
          mkMoodEntry (Js.toString idClock) tsClock input
            (analysisMood analysis) (analysisConfidence analysis) None method in
        let s := setCurrentMood (fun _ => Some moodEntry) s in
        let s := setMoodHistory (appendEntry moodEntry) s in
        let s := setCurrentInput EmptyString s in
        let s := generatePersonalizedContent moodEntry s in
        toast (MoodDetected (analysisMood analysis) (analysisConfidence analysis)) s
    | Rejected | Malformed =>
        let s := toast FailedToAnalyze s in
        consoleError MoodAnalysisError s
    end in
  setIsAnalyzing false s.

(** *** The two effects *)

(** [useEffect(..., [moodHistory.length])]. *)
Definition historyLengthEffect (s : State) : State :=
  if (5 <=? List.length (moodHistory s))%nat then generatePatternInsights s else s.

(** [useEffect(..., [moodHistory])]. *)
Definition historyEffect (effectClock callClock : Z) (s : State) : State :=
  let currentWeekStart := getWeekStart effectClock in
  let lastSummary := hd_error (weeklySummaries s) in
  if (3 <=? List.length (moodHistory s))%nat
     && match lastSummary with
        | None => true
        | Some l => weekStart l <? currentWeekStart - sevenDays
        end
  then generateWeeklySummary callClock s
  else s.

(** *** One event, and a run of events *)

Definition step (e : Event) (s : State) : State :=
  match e with
  | InputChanged v => setCurrentInput v s
  | CallAnalyzeMood input method => analyzeMood input method s
  | ClassifyAnswered i answer idClock tsClock =>
      match nth_error (classifyRequests s) i with
      | Some (input, method) =>
          analyzeMoodResume input method answer idClock tsClock
            (setClassifyRequests (dropNth i) s)
      | None => s
      end
  | ContentAnswered i answer =>
      match nth_error (contentRequests s) i with
      | Some moodEntry =>
          generatePersonalizedContentResume moodEntry answer
            (setContentRequests (dropNth i) s)
      | None => s
      end
  | HistoryLengthChanged => historyLengthEffect s
  | HistoryChanged effectClock callClock => historyEffect effectClock callClock s
  | CallGeneratePatternInsights => generatePatternInsights s
  | InsightsAnswered i answer =>
      match nth_error (insightRequests s) i with
      | Some _ =>
          generatePatternInsightsResume answer (setInsightRequests (dropNth i) s)
      | None => s
      end
  | CallGenerateWeeklySummary now => generateWeeklySummary now s
  | SummaryAnswered i answer =>
      match nth_error (summaryRequests s) i with
      | Some draft =>
          generateWeeklySummaryResume draft answer (setSummaryRequests (dropNth i) s)
      | None => s
      end
  end.

Definition run (events : list Event) (s : State) : State :=
  fold_left (fun s e => step e s) events s.

End App.

(* ------------------------------------------------------------------ *)
(** ** Wording of the specification, for comparison with the code *)

(** "The most recent Sunday at local midnight": the start of the local day
    of [t], moved back to the Sunday of its week. *)
Definition sundayMidnight (tz : Z) (t : Z) : Z :=
  ((dayNumber tz t - getDay tz t) * msPerDay - tz)%Z.

(** "Entries whose mood is in {happy, excited, calm, motivated}". *)
Definition isPositiveMood (m : string) : Prop :=
  m = "happy"%string \/ m = "excited"%string \/ m = "calm"%string
  \/ m = "motivated"%string.

Definition isPositiveMood_dec (m : string) : {isPositiveMood m} + {~ isPositiveMood m}.
Proof.
  unfold isPositiveMood.
  destruct (string_dec m "happy"); [left; tauto|].
  destruct (string_dec m "excited"); [left; tauto|].
  destruct (string_dec m "calm"); [left; tauto|].
  destruct (string_dec m "motivated"); [left; tauto|].
  right. tauto.
Defined.

(** "Count entries whose mood is in {happy, excited, calm, motivated}". *)
Fixpoint positiveCountOf (es : list MoodEntry) : nat :=
  match es with
  | [] => 0
  | e :: es' =>
      (if isPositiveMood_dec (mood e) then 1 else 0) + positiveCountOf es'
  end.

(** Number of occurrences of a mood in a list of entries, and the position
    at which a mood is met first (the length of the list when it is not
    met). *)
Definition occurrences (m : string) (es : list MoodEntry) : nat :=
  count_occ string_dec (map mood es) m.

Fixpoint firstIndex (m : string) (ms : list string) : nat :=
  match ms with
  | [] => 0
  | x :: ms' => if String.eqb x m then 0 else S (firstIndex m ms')
  end.


(** Keys for which a plain object behaves as a map in creation order. *)
Definition plainKey (k : string) : bool :=
  negb (Js.isArrayIndex k) && negb (Js.isObjectPrototypeName k).

(** The eight moods of the classification prompt. *)
Definition moodNames : list string :=
  ["happy"; "sad"; "angry"; "anxious"; "excited"; "calm"; "confused";
   "motivated"]%string.

(** An answer that makes the handler take its [catch] branch. *)
Definition isFailure {A : Type} (answer : Answer A) : bool :=
  match answer with
  | Rejected | Malformed => true
  | Parsed _ => false
  end.

(* ------------------------------------------------------------------ *)
(** ** Sample journals *)

(** Sample data used in the examples. *)
Definition sampleEntry (m : string) (t : Z) : MoodEntry :=
  mkMoodEntry (Js.toString t) t "note"%string m (80 # 1)%Q None TextInput.

Definition sampleInsight : PatternInsight :=
  mkPatternInsight "evening calm"%string (40 # 1)%Q "calm in the evening"%string
    "keep the routine"%string "evenings"%string.

(** The life of one submission: the text is sent, the gateway answers with
    mood [m] at time [t], both effects run on the new history, the
    supportive text arrives three seconds later and the effect on the
    history runs again. *)
Definition journalEntry (m : string) (t : Z) : list Event :=
  [CallAnalyzeMood "note" TextInput;
   ClassifyAnswered 0 (Parsed (mkAnalysis m (80 # 1)%Q)) t t;
   HistoryLengthChanged;
   HistoryChanged t t;
   ContentAnswered 0 (Parsed "Take a slow breath."%string);
   HistoryChanged (t + 3000) (t + 3000)].

Definition sampleSummaryAnswer : Answer SummaryAnalysis :=
  Parsed (mkSummaryAnalysis ["a calm week"%string] ["keep going"%string]).

(** Four entries in the week of Christmas 2023 (times in UTC): Sunday
    24 December 05:00, then Tuesday 26, Wednesday 27 and Thursday
    28 December at 12:00. *)
Definition christmasJournal : list Event :=
  journalEntry "calm" 1703394000000 ++ journalEntry "happy" 1703592000000
  ++ journalEntry "calm" 1703678400000 ++ journalEntry "sad" 1703764800000.

(** Three entries in the first week of 2024: Tuesday 2, Wednesday 3 and
    Thursday 4 January, 12:00 UTC. *)
Definition newYearJournal : list Event :=
  journalEntry "calm" 1704196800000 ++ journalEntry "calm" 1704283200000
  ++ journalEntry "happy" 1704369600000.

(** A submission on Monday 8 January 2024, classified at 10:00:00 UTC; the
    summary requested by the effect is answered, the supportive text
    arrives at 10:00:03, the effect runs again and its request is answered
    too. *)
Definition mondaySubmission : list Event :=
  [CallAnalyzeMood "back to work" TextInput;
   ClassifyAnswered 0 (Parsed (mkAnalysis "motivated" (90 # 1)%Q))
     1704708000000 1704708000000;
   HistoryLengthChanged;
   HistoryChanged 1704708000000 1704708000000;
   SummaryAnswered 0 sampleSummaryAnswer;
   ContentAnswered 0 (Parsed "One step at a time."%string);
   HistoryChanged 1704708003000 1704708003000;
   SummaryAnswered 0 sampleSummaryAnswer].

(** Three entries on one morning, Sunday 31 December 2023, at 10:00, 10:05
    and 10:10 UTC; nothing was written in the week before. *)
Definition sundayJournal : list Event :=
  journalEntry "calm" 1704016800000 ++ journalEntry "happy" 1704017100000
  ++ journalEntry "calm" 1704017400000.

(** The first week of 2024, its summary asked for with the button on
    Monday 8 January at 10:00 UTC and answered, then three entries on
    Tuesday 9, Wednesday 10 and Thursday 11 January at 09:00 UTC. *)
Definition januaryJournal : list Event :=
  newYearJournal
  ++ [CallGenerateWeeklySummary 1704708000000;
      SummaryAnswered 0 sampleSummaryAnswer]
  ++ journalEntry "calm" 1704790800000 ++ journalEntry "sad" 1704877200000
  ++ journalEntry "calm" 1704963600000.

(* ------------------------------------------------------------------ *)
(** ** Predicates used in the proofs *)


(** A distribution [d] counts the moods [ms], with its keys in the order
    in which they are met in [ms]. *)
Definition countsMoods (d : Js.object nat) (ms : list string) : Prop :=
  (forall k, Js.get d k
             = match count_occ string_dec ms k with
               | 0 => None
               | S n => Some (S n)
               end)
  /\ NoDup (map fst d)
  /\ StronglySorted (fun a b => firstIndex a ms < firstIndex b ms) (map fst d).

(** Every stored summary, and every summary still waiting for the gateway,
    was made from at least three entries. *)
Definition summariesCoverThreeEntries (s : State) : Prop :=
  Forall (fun summary => 3 <= List.length (entries summary)) (weeklySummaries s)
  /\ Forall (fun draft => 3 <= List.length (draftEntries draft)) (summaryRequests s).

(** The in-flight flag counts the pattern-insight requests that wait for
    the gateway. *)
Definition singleFlight (s : State) : Prop :=
  List.length (insightRequests s) = if isGeneratingInsights s then 1 else 0.

(** The two stores keep within their capacity. *)
Definition withinCapacity (s : State) : Prop :=
  List.length (moodHistory s) <= 50 /\ List.length (weeklySummaries s) <= 12.

(* ------------------------------------------------------------------ *)
(** ** The page: which calls its buttons allow *)

Definition isTextInput (method : InputMethod) : bool :=
  match method with
  | TextInput => true
  | VoiceInput | PhotoInput => false
  end.

(** Whether the page lets an event happen.  The three buttons:
    - [onClick={() => analyzeMood(currentInput)}] with
      [disabled={isAnalyzing || !currentInput.trim()}];
    - [onClick={generatePatternInsights}], rendered when
      [moodHistory.length >= 5] and either [patternInsights.length === 0 &&
      !isGeneratingInsights] or, for the refresh button,
      [patternInsights.length > 0] with [disabled={isGeneratingInsights}];
    - [onClick={generateWeeklySummary}] with
      [disabled={moodHistory.length < 3}].
    Effects and answers of the gateway are not held back by the page. *)
Definition enabled (e : Event) (s : State) : bool :=
  match e with
  | CallAnalyzeMood input method =>
      String.eqb input (currentInput s) && isTextInput method
      && negb (isAnalyzing s || Js.trimIsEmpty (currentInput s))
  | CallGeneratePatternInsights =>
      (5 <=? List.length (moodHistory s)) && negb (isGeneratingInsights s)
  | CallGenerateWeeklySummary _ => 3 <=? List.length (moodHistory s)
  | _ => true
  end.

(** A run in which the handlers are only called through the page. *)
Definition pageStep (tz : Z) (e : Event) (s : State) : State :=
  if enabled e s then step tz e s else s.

Definition pageRun (tz : Z) (events : list Event) (s : State) : State :=
  fold_left (fun s e => pageStep tz e s) events s.

(** The readings of [Date.now()] that come with the answers of the
    classification requests of a run, in the order of the run: those used
    for [timestamp] and those used for [id]. *)
Fixpoint timestampClocks (events : list Event) : list Z :=
  match events with
  | [] => []
  | ClassifyAnswered _ _ _ tsClock :: rest => tsClock :: timestampClocks rest
  | _ :: rest => timestampClocks rest
  end.

Fixpoint idClocks (events : list Event) : list Z :=
  match events with
  | [] => []
  | ClassifyAnswered _ _ idClock _ :: rest => idClock :: idClocks rest
  | _ :: rest => idClocks rest
  end.

(** A text of ASCII characters only.  Among these the white space that
    [trim] removes is TAB, LF, VT, FF, CR and SP, the characters of
    [Js.isWhiteSpace]; the others ([U+00A0], [U+FEFF], [U+2028], [U+2029]
    and the space separators) lie outside ASCII. *)
Definition isAsciiText (s : string) : bool :=
  forallb (fun c => nat_of_ascii c <? 128) (list_ascii_of_string s).

(** All fields of an entry but its supportive text. *)
Definition classification (e : MoodEntry)
  : string * Z * string * string * Q * InputMethod :=
  (id e, timestamp e, text e, mood e, confidence e, inputMethod e).

(** Sum of the counts of a distribution. *)
Definition totalCount (d : Js.object nat) : nat := list_sum (map snd d).

(** What [getMoodTrend] computes from the moods of the entries it looks
    at. *)
Definition trendOfMoods (ms : list string) : option Trend :=
  if List.length ms <? 2 then None
  else
    let positiveCount := List.length (filter (includes positiveMoods) ms) in
    Some (if 3 <=? positiveCount then Positive
          else if positiveCount <=? 1 then Concerning
          else Mixed).

(** No entry has a mood that is a name inherited from
    [Object.prototype]. *)
Definition ownMoods (es : list MoodEntry) : Prop :=
  Forall (fun e => Js.isObjectPrototypeName (mood e) = false) es.

(** A stored summary, or a summary that waits for the gateway, as
    [generateWeeklySummary] builds it: the week, the entries inside it,
    and, for entries with moods that are not inherited names, the
    distribution and the dominant mood counted from these entries (the
    average confidence, a floating-point number in the source, is left
    out). *)
Definition wellFormedWeek (tz : Z) (ws we : Z) (es : list MoodEntry)
    (dominant : string) (distribution : Js.object nat) : Prop :=
  we = (ws + sevenDays)%Z
  /\ getDay tz ws = 0%Z
  /\ Forall (fun e => (ws <= timestamp e < we)%Z) es
  /\ (ownMoods es ->
      distribution = moodCountsOf es
      /\ dominantMoodOf distribution = Some dominant).

Definition wellFormedSummary (tz : Z) (sm : WeeklySummary) : Prop :=
  wellFormedWeek tz (weekStart sm) (weekEnd sm) (entries sm) (dominantMood sm)
    (moodDistribution sm).

Definition wellFormedDraft (tz : Z) (d : SummaryDraft) : Prop :=
  wellFormedWeek tz (draftWeekStart d) (draftWeekEnd d) (draftEntries d)
    (draftDominantMood d) (draftDistribution d).

(** The context of a pattern-insight request keeps within the bounds of
    the prompt and, when none of the moods it shows is a name inherited
    from [Object.prototype], its counts add up to the number of entries
    shown. *)
Definition boundedContext (c : InsightsContext) : Prop :=
  List.length (contextEntries c) <= 20
  /\ Forall (fun shown => String.length (snd shown) <= 100) (contextEntries c)
  /\ (Forall (fun shown => Js.isObjectPrototypeName (fst (fst shown)) = false)
        (contextEntries c) ->
      totalCount (contextCounts c) = List.length (contextEntries c)).

(* ------------------------------------------------------------------ *)
(** ** The chat demo of [InteractiveChat] *)

Module Chat.

Record State : Type := mkState {
  message : string;
  isProcessing : bool;
  timeouts : nat            (* timers set by [setTimeout] and not yet fired *)
}.

Definition initialState : State := mkState EmptyString false 0.

(** [handleSendMessage]. *)
Definition handleSendMessage (c : State) : State :=
  if Js.trimIsEmpty (message c) then c
  else mkState (message c) true (S (timeouts c)).

(** The callback of [setTimeout(..., 2000)]. *)
Definition timeoutCallback (c : State) : State :=
  mkState EmptyString false (pred (timeouts c)).

Inductive Event : Type :=
| Typed (v : string)        (* onChange={(e) => setMessage(e.target.value)} *)
| SendClicked               (* onClick={handleSendMessage} *)
| TimeoutFired.

(** The send button has [disabled={isProcessing || !message.trim()}]. *)
Definition step (e : Event) (c : State) : State :=
  match e with
  | Typed v => mkState v (isProcessing c) (timeouts c)
  | SendClicked =>
      if isProcessing c || Js.trimIsEmpty (message c) then c
      else handleSendMessage c
  | TimeoutFired =>
      match timeouts c with
      | 0 => c
      | S _ => timeoutCallback c
      end
  end.

Definition run (events : list Event) (c : State) : State :=
  fold_left (fun c e => step e c) events c.

End Chat.

(* ------------------------------------------------------------------ *)
(** ** Entry Store *)

Lemma firstn_app_firstn (A : Type) (n : nat) (a b : list A) :
  firstn n (a ++ firstn n b) = firstn n (a ++ b).
Proof.
  rewrite !firstn_app, firstn_firstn.
  f_equal. f_equal. lia.
Qed.

Lemma appendEntry_cons (e : MoodEntry) (current : list MoodEntry) :
  appendEntry e current = e :: firstn 49 current.
Proof. reflexivity. Qed.

Lemma appendEntry_length (e : MoodEntry) (current : list MoodEntry) :
  List.length (appendEntry e current) <= 50.
Proof. unfold appendEntry, Js.slice0. apply firstn_le_length. Qed.

Lemma appendAll_firstn (submitted store : list MoodEntry) :
  List.length store <= 50 ->
  appendAll submitted store = firstn 50 (rev submitted ++ store).
Proof.
  revert store.
  induction submitted as [|e es IH]; intros store Hstore.
  - simpl rev. simpl app. unfold appendAll. simpl fold_left.
    symmetry. now apply firstn_all2.
  - change (appendAll (e :: es) store) with (appendAll es (appendEntry e store)).
    rewrite IH by apply appendEntry_length.
    unfold appendEntry, Js.slice0.
    rewrite firstn_app_firstn.
    simpl rev. now rewrite <- app_assoc.
Qed.

(** C1. Appending to the mood history puts the new entry at index 0,
    keeps the entries that were there in their order and cuts the list
    after 50 entries.  Hence after any run of appends on a stored history
    of at most 50 entries (the fresh store is empty), the history is the
    list of all entries from the most recently appended one to the oldest
    one, cut after 50: it never has more than 50 entries, it is ordered
    newest first, and the entries that are dropped are the oldest ones. *)
Theorem entry_store_bounded_newest_first :
  forall (submitted store : list MoodEntry),
    List.length store <= 50 ->
    (forall e current, appendEntry e current = e :: firstn 49 current)
    /\ List.length (appendAll submitted store) <= 50
    /\ appendAll submitted store = firstn 50 (rev submitted ++ store)
    /\ rev submitted ++ store
       = appendAll submitted store ++ skipn 50 (rev submitted ++ store).
Proof.
  intros submitted store Hstore.
  split; [exact appendEntry_cons|].
  rewrite appendAll_firstn by assumption.
  split; [apply firstn_le_length|].
  split; [reflexivity|].
  symmetry. apply firstn_skipn.
Qed.

Lemma entry_store_bounded_newest_first_witness :
  let e0 := sampleEntry "calm" 1000%Z in
  let e1 := sampleEntry "happy" 2000%Z in
  let e2 := sampleEntry "sad" 3000%Z in
  appendAll [e1; e2] [e0] = [e2; e1; e0].
Proof.
  intros e0 e1 e2.
  destruct (entry_store_bounded_newest_first [e1; e2] [e0]) as (_ & _ & H & _).
  - simpl. lia.
  - exact H.
Defined.

(* ------------------------------------------------------------------ *)
(** ** Trend *)

Lemma includes_In (l : list string) (m : string) :
  includes l m = true <-> In m l.
Proof.
  unfold includes. rewrite existsb_exists. split.
  - intros (x & Hx & Heq). apply String.eqb_eq in Heq. now subst.
  - intro H. exists m. split; [assumption | apply String.eqb_refl].
Qed.

Lemma includes_positiveMoods (m : string) :
  includes positiveMoods m = true <-> isPositiveMood m.
Proof.
  rewrite includes_In. unfold positiveMoods, isPositiveMood. cbn [In].
  intuition congruence.
Qed.

Lemma positive_filter_length (es : list MoodEntry) :
  List.length (filter (fun entry => includes positiveMoods (mood entry)) es)
  = positiveCountOf es.
Proof.
  induction es as [|e es IH]; [reflexivity|].
  cbn [filter positiveCountOf].
  destruct (isPositiveMood_dec (mood e)) as [Hin | Hout].
  - apply includes_positiveMoods in Hin. rewrite Hin. cbn [List.length]. now rewrite IH.
  - destruct (includes positiveMoods (mood e)) eqn:E.
    + apply includes_positiveMoods in E. contradiction.
    + now rewrite IH.
Qed.

Lemma getMoodTrend_unfold (h : list MoodEntry) :
  getMoodTrend h =
  if List.length h <? 2 then None
  else Some (if 3 <=? positiveCountOf (firstn 5 h) then Positive
             else if positiveCountOf (firstn 5 h) <=? 1 then Concerning
             else Mixed).
Proof.
  unfold getMoodTrend, Js.slice0. now rewrite positive_filter_length.
Qed.

(** C6. [getMoodTrend] gives no trend for a history of fewer than 2
    entries; otherwise, with the number of entries among the 5 most recent
    ones whose mood is one of happy, excited, calm, motivated, it gives
    positive when that number is at least 3, concerning when it is at most
    1, and mixed otherwise.  On [happy, excited, calm, motivated, sad] it
    gives positive. *)
Theorem getMoodTrend_cases :
  forall h : list MoodEntry,
    (List.length h < 2 -> getMoodTrend h = None)
    /\ (2 <= List.length h ->
        (3 <= positiveCountOf (firstn 5 h) -> getMoodTrend h = Some Positive)
        /\ (positiveCountOf (firstn 5 h) <= 1 -> getMoodTrend h = Some Concerning)
        /\ (positiveCountOf (firstn 5 h) = 2 -> getMoodTrend h = Some Mixed))
    /\ getMoodTrend
         [sampleEntry "happy" 5%Z; sampleEntry "excited" 4%Z; sampleEntry "calm" 3%Z;
          sampleEntry "motivated" 2%Z; sampleEntry "sad" 1%Z] = Some Positive.
Proof.
  intro h. rewrite getMoodTrend_unfold.
  split; [|split].
  - intro H. apply Nat.ltb_lt in H. now rewrite H.
  - intro H. apply Nat.ltb_ge in H. rewrite H.
    repeat split; intro Hc.
    + apply Nat.leb_le in Hc. now rewrite Hc.
    + assert (H3 : (3 <=? positiveCountOf (firstn 5 h)) = false)
        by (apply Nat.leb_gt; lia).
      rewrite H3. apply Nat.leb_le in Hc. now rewrite Hc.
    + now rewrite Hc.
  - reflexivity.
Qed.

Lemma getMoodTrend_cases_witness :
  getMoodTrend [sampleEntry "sad" 3%Z; sampleEntry "calm" 2%Z; sampleEntry "happy" 1%Z]
  = Some Mixed.
Proof.
  apply (getMoodTrend_cases
           [sampleEntry "sad" 3%Z; sampleEntry "calm" 2%Z; sampleEntry "happy" 1%Z]).
  - simpl. lia.
  - reflexivity.
Defined.

(* ------------------------------------------------------------------ *)
(** ** Classification: what is recorded, and what a failure leaves *)

(** C8. When the classification request fails (the gateway rejects, or
    the answer does not parse), the error toast is raised, the analysing
    flag is cleared, and nothing is recorded: the mood history, the mood on
    display and the weekly summaries are what they were, and no
    supportive-content request is issued.  The call of [analyzeMood] that
    sent the request had not touched the history either. *)
Theorem classification_failure_records_nothing :
  forall (tz : Z) (s : State) (i : nat) (input : string) (method : InputMethod)
         (answer : Answer Analysis) (idClock tsClock : Z),
    nth_error (classifyRequests s) i = Some (input, method) ->
    isFailure answer = true ->
    let s' := step tz (ClassifyAnswered i answer idClock tsClock) s in
    (forall s0 : State, moodHistory (analyzeMood input method s0) = moodHistory s0)
    /\ moodHistory s' = moodHistory s
    /\ toasts s' = FailedToAnalyze :: toasts s
    /\ isErrorToast FailedToAnalyze = true
    /\ console s' = MoodAnalysisError :: console s
    /\ currentMood s' = currentMood s
    /\ weeklySummaries s' = weeklySummaries s
    /\ contentRequests s' = contentRequests s
    /\ classifyRequests s' = dropNth i (classifyRequests s)
    /\ isAnalyzing s' = false.
Proof.
  intros tz s i input method answer idClock tsClock Hreq Hfail s'.
  subst s'. unfold step. rewrite Hreq.
  split.
  - intro s0. unfold analyzeMood. now destruct (Js.trimIsEmpty input).
  - destruct answer as [| |a]; [| |discriminate Hfail];
      unfold analyzeMoodResume; cbn; repeat split; reflexivity.
Qed.

Lemma classification_failure_records_nothing_witness :
  let s := run 0%Z [CallAnalyzeMood "rough day" TextInput] initialState in
  moodHistory (step 0%Z (ClassifyAnswered 0 Malformed 1000%Z 1000%Z) s) = moodHistory s
  /\ toasts (step 0%Z (ClassifyAnswered 0 Malformed 1000%Z 1000%Z) s)
     = FailedToAnalyze :: toasts s.
Proof.
  intro s.
  destruct (@classification_failure_records_nothing 0%Z s 0 "rough day"%string
              TextInput Malformed 1000%Z 1000%Z eq_refl eq_refl)
    as (_ & H1 & H2 & _).
  split; [exact H1 | exact H2].
Defined.

(** C10. On a successful classification the entry put at the head of the
    mood history carries the mood and the confidence of the parsed answer
    as they are, whatever string and whatever number they are: there is no
    test that the mood is one of the eight names or that the confidence is
    between 0 and 100. *)
Theorem classification_recorded_as_is :
  forall (tz : Z) (s : State) (i : nat) (input : string) (method : InputMethod)
         (m : string) (c : Q) (idClock tsClock : Z),
    nth_error (classifyRequests s) i = Some (input, method) ->
    let s' := step tz (ClassifyAnswered i (Parsed (mkAnalysis m c)) idClock tsClock) s in
    let moodEntry := mkMoodEntry (Js.toString idClock) tsClock input m c None method in
    moodHistory s' = moodEntry :: firstn 49 (moodHistory s)
    /\ mood moodEntry = m
    /\ confidence moodEntry = c
    /\ currentMood s' = Some moodEntry.
Proof.
  intros tz s i input method m c idClock tsClock Hreq s' moodEntry.
  subst s' moodEntry. unfold step. rewrite Hreq.
  unfold analyzeMoodResume. cbn. repeat split; reflexivity.
Qed.

Lemma classification_recorded_as_is_witness :
  let s := run 0%Z [CallAnalyzeMood "whatever" TextInput] initialState in
  map (fun e => (mood e, confidence e))
    (moodHistory
       (step 0%Z (ClassifyAnswered 0 (Parsed (mkAnalysis "furious" (250 # 1)%Q))
                    1000%Z 1000%Z) s))
  = [("furious"%string, (250 # 1)%Q)].
Proof.
  intro s.
  destruct (@classification_recorded_as_is 0%Z s 0 "whatever"%string TextInput
              "furious"%string (250 # 1)%Q 1000%Z 1000%Z eq_refl)
    as (H & _).
  rewrite H. reflexivity.
Defined.

(* ------------------------------------------------------------------ *)
(** ** Failures of the three enrichments *)

(** C4 does not hold as stated: a failed pattern-insight request empties
    the insights on display (the [catch] branch calls
    [setPatternInsights([])]). *)
Lemma insight_failure_clears_insights :
  let s :=
    run 0%Z
      [CallGeneratePatternInsights;
       InsightsAnswered 0 (Parsed (InsightsArray [sampleInsight]));
       CallGeneratePatternInsights]
      initialState in
  patternInsights s = [sampleInsight]
  /\ patternInsights (step 0%Z (InsightsAnswered 0 Rejected) s) = [].
Proof. split; reflexivity. Qed.

(** C4, amended. A failed supportive-content request and a failed
    weekly-summary request are logged and change nothing else (the answered
    request apart): mood history, weekly summaries, insights on display,
    mood on display and toasts are what they were.  A failed
    pattern-insight request is logged, raises no toast, leaves the mood
    history and the weekly summaries as they were, empties the insights on
    display and clears the in-flight flag. *)
Theorem enrichment_failures_logged :
  forall (tz : Z) (s : State) (i : nat),
    (forall (moodEntry : MoodEntry) (answer : Answer string),
        nth_error (contentRequests s) i = Some moodEntry ->
        isFailure answer = true ->
        let s' := step tz (ContentAnswered i answer) s in
        s' = consoleError ContentGenerationError (setContentRequests (dropNth i) s)
        /\ moodHistory s' = moodHistory s
        /\ weeklySummaries s' = weeklySummaries s
        /\ patternInsights s' = patternInsights s
        /\ currentMood s' = currentMood s
        /\ toasts s' = toasts s
        /\ console s' = ContentGenerationError :: console s)
    /\ (forall (draft : SummaryDraft) (answer : Answer SummaryAnalysis),
        nth_error (summaryRequests s) i = Some draft ->
        isFailure answer = true ->
        let s' := step tz (SummaryAnswered i answer) s in
        s' = consoleError WeeklySummaryError (setSummaryRequests (dropNth i) s)
        /\ moodHistory s' = moodHistory s
        /\ weeklySummaries s' = weeklySummaries s
        /\ patternInsights s' = patternInsights s
        /\ currentMood s' = currentMood s
        /\ toasts s' = toasts s
        /\ console s' = WeeklySummaryError :: console s)
    /\ (forall (context : InsightsContext) (answer : Answer InsightsJson),
        nth_error (insightRequests s) i = Some context ->
        isFailure answer = true ->
        let s' := step tz (InsightsAnswered i answer) s in
        moodHistory s' = moodHistory s
        /\ weeklySummaries s' = weeklySummaries s
        /\ currentMood s' = currentMood s
        /\ toasts s' = toasts s
        /\ console s' = PatternInsightsError :: console s
        /\ patternInsights s' = []
        /\ isGeneratingInsights s' = false).
Proof.
  intros tz s i.
  split; [|split]; intros x answer Hreq Hfail; unfold step; rewrite Hreq;
    (destruct answer as [| |a]; [| |discriminate Hfail]);
    cbn; repeat split; reflexivity.
Qed.

Lemma enrichment_failures_logged_witness :
  let s :=
    run 0%Z
      [CallGeneratePatternInsights;
       InsightsAnswered 0 (Parsed (InsightsArray [sampleInsight]));
       CallGeneratePatternInsights]
      initialState in
  moodHistory (step 0%Z (InsightsAnswered 0 Malformed) s) = moodHistory s
  /\ patternInsights (step 0%Z (InsightsAnswered 0 Malformed) s) = [].
Proof.
  intro s.
  destruct (enrichment_failures_logged 0%Z s 0) as (_ & _ & H).
  destruct (H (mkInsightsContext [] []) Malformed eq_refl eq_refl)
    as (H1 & _ & _ & _ & _ & H6 & _).
  split; [exact H1 | exact H6].
Defined.

(* ------------------------------------------------------------------ *)
(** ** Week arithmetic *)

Section Weeks.

Local Open Scope Z_scope.

Variable tz : Z.

Lemma getWeekStart_eq (t : Z) :
  getWeekStart tz t = t - getDay tz t * msPerDay.
Proof.
  unfold getWeekStart, setDateBack, timeWithinDay, dayNumber.
  pose proof (Z.div_mod (t + tz) msPerDay) as H.
  unfold msPerDay in *. lia.
Qed.

Lemma getDay_range (t : Z) : 0 <= getDay tz t < 7.
Proof. unfold getDay. apply Z.mod_pos_bound. lia. Qed.

Lemma dayNumber_shift (t k : Z) :
  dayNumber tz (t - k * msPerDay) = dayNumber tz t - k.
Proof.
  unfold dayNumber.
  replace (t - k * msPerDay + tz) with (t + tz + (- k) * msPerDay) by lia.
  rewrite Z.div_add by (unfold msPerDay; lia). lia.
Qed.

Lemma timeWithinDay_shift (t k : Z) :
  timeWithinDay tz (t - k * msPerDay) = timeWithinDay tz t.
Proof.
  unfold timeWithinDay.
  replace (t - k * msPerDay + tz) with (t + tz + (- k) * msPerDay) by lia.
  apply Z.mod_add. unfold msPerDay; lia.
Qed.

(** The result of [getWeekStart] falls on a Sunday, at most six days
    back. *)
Lemma getWeekStart_sunday (t : Z) :
  getDay tz (getWeekStart tz t) = 0
  /\ getWeekStart tz t <= t < getWeekStart tz t + sevenDays.
Proof.
  rewrite getWeekStart_eq. split.
  - unfold getDay at 1. rewrite dayNumber_shift. unfold getDay.
    pose proof (Z.div_mod (dayNumber tz t + 4) 7) as H.
    replace (dayNumber tz t - (dayNumber tz t + 4) mod 7 + 4)
      with (0 + (dayNumber tz t + 4) / 7 * 7) by lia.
    now rewrite Z.mod_add by lia.
  - pose proof (getDay_range t). unfold sevenDays, msPerDay. lia.
Qed.

(** It keeps the time within the day of its argument. *)
Lemma getWeekStart_timeWithinDay (t : Z) :
  timeWithinDay tz (getWeekStart tz t) = timeWithinDay tz t.
Proof. rewrite getWeekStart_eq. apply timeWithinDay_shift. Qed.

Lemma getWeekStart_sundayMidnight (t : Z) :
  getWeekStart tz t = sundayMidnight tz t + timeWithinDay tz t.
Proof. unfold getWeekStart, setDateBack, sundayMidnight. lia. Qed.

(** The week that [generateWeeklySummary] sums up starts seven days before
    the week start of the current time. *)
Lemma getWeekStart_previous_week (now : Z) :
  getWeekStart tz (now - sevenDays) = getWeekStart tz now - sevenDays.
Proof.
  rewrite !getWeekStart_eq.
  assert (Hday : getDay tz (now - sevenDays) = getDay tz now).
  { unfold getDay. replace sevenDays with (7 * msPerDay) by reflexivity.
    rewrite dayNumber_shift.
    replace (dayNumber tz now - 7 + 4) with (dayNumber tz now + 4 + (-1) * 7) by lia.
    apply Z.mod_add. lia. }
  rewrite Hday. lia.
Qed.

(** The entries of the summary are the entries of the history whose
    timestamp is in the half-open week. *)
Lemma inWeek_filter (weekStart weekEnd : Z) (e : MoodEntry) (h : list MoodEntry) :
  In e (filter (inWeek weekStart weekEnd) h)
  <-> In e h /\ weekStart <= timestamp e < weekEnd.
Proof.
  rewrite filter_In. unfold inWeek.
  rewrite andb_true_iff, Z.geb_le, Z.ltb_lt. tauto.
Qed.

End Weeks.

(** C2. [getWeekStart] moves the date back to the Sunday of the week and
    keeps the time within the day, where the claim has local midnight.  On
    Wednesday 3 January 2024 at 12:00 UTC it gives Sunday 31 December at
    12:00, not at 00:00; the summary requested at that time covers
    24 December 12:00 to 31 December 12:00 and leaves out the entry of
    Sunday 24 December 05:00, which is in the week before the current one.
    The effect that is to generate a summary "when a new week starts"
    relies on a week start that is the same all week: as it is, one
    submission on Monday 8 January at 10:00:00 stores a summary with week
    start 31 December 10:00:00 and, when the supportive text arrives three
    seconds later, a second one with week start 31 December 10:00:03. *)
Theorem getWeekStart_keeps_time_of_day :
  (forall tz t : Z,
      getWeekStart tz t = (sundayMidnight tz t + timeWithinDay tz t)%Z)
  /\ getWeekStart 0 1704283200000 = 1704024000000%Z
  /\ sundayMidnight 0 1704283200000 = 1703980800000%Z
  /\ summaryRequests (run 0 christmasJournal initialState) = []
  /\ map timestamp (moodHistory (run 0 christmasJournal initialState))
     = [1703764800000; 1703678400000; 1703592000000; 1703394000000]%Z
  /\ map (fun d => (draftWeekStart d, draftWeekEnd d, map timestamp (draftEntries d)))
       (summaryRequests
          (generateWeeklySummary 0 1704283200000 (run 0 christmasJournal initialState)))
     = [(1703419200000, 1704024000000,
         [1703764800000; 1703678400000; 1703592000000])%Z]
  /\ weeklySummaries (run 0 newYearJournal initialState) = []
  /\ map weekStart
       (weeklySummaries (run 0 (newYearJournal ++ mondaySubmission) initialState))
     = [1704016803000; 1704016800000]%Z.
Proof.
  split; [exact getWeekStart_sundayMidnight|].
  repeat (split; [vm_compute; reflexivity|]).
  vm_compute; reflexivity.
Qed.

(* ------------------------------------------------------------------ *)
(** ** Weekly summaries *)

(** C3. With the three entries of the first week of 2024 in the history
    and no summary stored, two calls of [generateWeeklySummary] from the
    button, on Monday 8 January 2024 at 12:00 UTC and on Tuesday 9 January
    at 12:00 UTC, each answered by the gateway, leave two summaries with
    the same [weekStart] in the store.  In the state reached after the
    first one the effect does not generate at that time: its guard
    compares the [weekStart] of the latest summary, the button calls the
    function without it. *)
Theorem button_duplicates_weekStart :
  let s0 := run 0 newYearJournal initialState in
  let s1 :=
    run 0 [CallGenerateWeeklySummary 1704715200000;
           SummaryAnswered 0 sampleSummaryAnswer] s0 in
  let s2 :=
    run 0 [CallGenerateWeeklySummary 1704801600000;
           SummaryAnswered 0 sampleSummaryAnswer] s1 in
  (weeklySummaries s0 = [] /\ summaryRequests s0 = []
   /\ List.length (moodHistory s0) = 3)
  /\ map weekStart (weeklySummaries s1) = [1704024000000%Z]
  /\ historyEffect 0 1704801600000 1704801600000 s1 = s1
  /\ map weekStart (weeklySummaries s2) = [1704024000000; 1704024000000]%Z.
Proof.
  intros s0 s1 s2.
  split; [repeat split; vm_compute; reflexivity|].
  split; [|split]; vm_compute; reflexivity.
Qed.

(* ------------------------------------------------------------------ *)
(** ** Invariants of the runs *)

Section Runs.

Variable tz : Z.

Lemma run_snoc (events : list Event) (e : Event) (s : State) :
  run tz (events ++ [e]) s = step tz e (run tz events s).
Proof. unfold run. now rewrite fold_left_app. Qed.

(** An invariant of [step] that holds at the start holds after every
    run. *)
Lemma run_invariant (P : State -> Prop) :
  P initialState ->
  (forall e s, P s -> P (step tz e s)) ->
  forall events, P (run tz events initialState).
Proof.
  intros Hinit Hstep events.
  induction events as [|e events IH] using rev_ind.
  - exact Hinit.
  - rewrite run_snoc. now apply Hstep.
Qed.

Lemma Forall_dropNth (A : Type) (P : A -> Prop) (i : nat) (l : list A) :
  Forall P l -> Forall P (dropNth i l).
Proof.
  revert i. induction l as [|x l IH]; intros i H; [destruct i; exact H|].
  inversion H; subst. destruct i; cbn; [assumption|].
  constructor; auto.
Qed.

Lemma Forall_enqueue (A : Type) (P : A -> Prop) (x : A) (l : list A) :
  Forall P l -> P x -> Forall P (enqueue x l).
Proof.
  intros Hl Hx. unfold enqueue. apply Forall_app. split; [assumption|].
  now constructor.
Qed.

Lemma Forall_nth_error (A : Type) (P : A -> Prop) (i : nat) (l : list A) (x : A) :
  Forall P l -> nth_error l i = Some x -> P x.
Proof.
  intros H Hn. apply nth_error_In in Hn.
  rewrite Forall_forall in H. now apply H.
Qed.

Lemma Forall_slice0 (A : Type) (P : A -> Prop) (n : nat) (l : list A) :
  Forall P l -> Forall P (Js.slice0 n l).
Proof.
  intro H. unfold Js.slice0.
  rewrite <- (firstn_skipn n l) in H.
  now apply Forall_app in H.
Qed.

(** *** Summaries are made from three entries or more *)

Lemma generateWeeklySummary_short_week (now : Z) (s : State) :
  List.length
    (filter (inWeek (getWeekStart tz (now - sevenDays))
               (getWeekStart tz (now - sevenDays) + sevenDays)) (moodHistory s)) < 3 ->
  generateWeeklySummary tz now s = s.
Proof.
  intro H. unfold generateWeeklySummary.
  apply Nat.ltb_lt in H. now rewrite H.
Qed.

Lemma generateWeeklySummary_covers (now : Z) (s : State) :
  summariesCoverThreeEntries s ->
  summariesCoverThreeEntries (generateWeeklySummary tz now s).
Proof.
  intros [Hstore Hwait]. unfold generateWeeklySummary.
  destruct (Nat.ltb_spec
              (List.length
                 (filter (inWeek (getWeekStart tz (now - sevenDays))
                            (getWeekStart tz (now - sevenDays) + sevenDays))
                    (moodHistory s))) 3) as [Hlt | Hge].
  - now split.
  - destruct (dominantMoodOf _) as [m|]; [|now split].
    split; cbn; [assumption|].
    apply Forall_enqueue; [assumption | exact Hge].
Qed.

Lemma step_covers (e : Event) (s : State) :
  summariesCoverThreeEntries s -> summariesCoverThreeEntries (step tz e s).
Proof.
  intros Hs. pose proof Hs as [Hstore Hwait].
  destruct e as [v | input method | i answer c1 c2 | i answer | | c1 c2 |
                 | i answer | now | i answer]; cbn [step].
  - exact Hs.
  - unfold analyzeMood. destruct (Js.trimIsEmpty input); exact Hs.
  - destruct (nth_error (classifyRequests s) i) as [[input method]|]; [|exact Hs].
    unfold analyzeMoodResume. destruct answer; exact Hs.
  - destruct (nth_error (contentRequests s) i) as [moodEntry|]; [|exact Hs].
    unfold generatePersonalizedContentResume. destruct answer; exact Hs.
  - unfold historyLengthEffect, generatePatternInsights.
    destruct (5 <=? _); [|exact Hs].
    destruct (isGeneratingInsights s); exact Hs.
  - unfold historyEffect.
    destruct (_ && _); [|exact Hs].
    now apply generateWeeklySummary_covers.
  - unfold generatePatternInsights.
    destruct (isGeneratingInsights s); exact Hs.
  - destruct (nth_error (insightRequests s) i) as [context|]; [|exact Hs].
    unfold generatePatternInsightsResume. destruct answer as [| |[found|]]; exact Hs.
  - now apply generateWeeklySummary_covers.
  - destruct (nth_error (summaryRequests s) i) as [draft|] eqn:Hreq; [|exact Hs].
    pose proof (Forall_nth_error _ Hwait Hreq) as Hdraft.
    unfold generateWeeklySummaryResume.
    destruct answer as [| |analysis]; split; cbn;
      try assumption; try (now apply Forall_dropNth).
    constructor; [exact Hdraft|].
    now apply (@Forall_slice0 _ _ 11).
Qed.

(** *** One pattern-insight request at a time *)

Lemma dropNth_length (A : Type) (i : nat) (l : list A) (x : A) :
  nth_error l i = Some x -> S (List.length (dropNth i l)) = List.length l.
Proof.
  revert i. induction l as [|y l IH]; intros i H.
  - destruct i; discriminate H.
  - destruct i; cbn in *; [reflexivity|].
    f_equal. now apply IH.
Qed.

Lemma generatePatternInsights_dropped (s : State) :
  isGeneratingInsights s = true -> generatePatternInsights s = s.
Proof. intro H. unfold generatePatternInsights. now rewrite H. Qed.

Lemma generatePatternInsights_singleFlight (s : State) :
  singleFlight s -> singleFlight (generatePatternInsights s).
Proof.
  unfold singleFlight, generatePatternInsights. intro H.
  destruct (isGeneratingInsights s) eqn:E.
  - now rewrite E.
  - cbn. unfold enqueue. rewrite length_app, H. reflexivity.
Qed.

Lemma generatePatternInsightsResume_clears (answer : Answer InsightsJson) (s : State) :
  isGeneratingInsights (generatePatternInsightsResume answer s) = false
  /\ insightRequests (generatePatternInsightsResume answer s) = insightRequests s.
Proof. destruct answer as [| |[found|]]; split; reflexivity. Qed.

Lemma answered_insights_none_left (s : State) (i : nat) (context : InsightsContext) :
  singleFlight s ->
  nth_error (insightRequests s) i = Some context ->
  dropNth i (insightRequests s) = [].
Proof.
  unfold singleFlight. intros H Hreq.
  apply dropNth_length in Hreq.
  destruct (dropNth i (insightRequests s)); [reflexivity|].
  destruct (isGeneratingInsights s); cbn in Hreq; lia.
Qed.

Lemma step_singleFlight (e : Event) (s : State) :
  singleFlight s -> singleFlight (step tz e s).
Proof.
  intros Hs.
  destruct e as [v | input method | i answer c1 c2 | i answer | | c1 c2 |
                 | i answer | now | i answer]; cbn [step].
  - exact Hs.
  - unfold analyzeMood. destruct (Js.trimIsEmpty input); exact Hs.
  - destruct (nth_error (classifyRequests s) i) as [[input method]|]; [|exact Hs].
    unfold analyzeMoodResume. destruct answer; exact Hs.
  - destruct (nth_error (contentRequests s) i) as [moodEntry|]; [|exact Hs].
    unfold generatePersonalizedContentResume. destruct answer; exact Hs.
  - unfold historyLengthEffect.
    destruct (5 <=? _); [|exact Hs].
    now apply generatePatternInsights_singleFlight.
  - unfold historyEffect.
    destruct (_ && _); [|exact Hs].
    unfold generateWeeklySummary.
    destruct (_ <? 3); [exact Hs|].
    destruct (dominantMoodOf _); exact Hs.
  - now apply generatePatternInsights_singleFlight.
  - destruct (nth_error (insightRequests s) i) as [context|] eqn:Hreq; [|exact Hs].
    unfold singleFlight.
    destruct (generatePatternInsightsResume_clears answer
                (setInsightRequests (dropNth i) s)) as [Hflag Hleft].
    rewrite Hflag, Hleft. cbn.
    now rewrite (answered_insights_none_left _ Hs Hreq).
  - unfold generateWeeklySummary.
    destruct (_ <? 3); [exact Hs|].
    destruct (dominantMoodOf _); exact Hs.
  - destruct (nth_error (summaryRequests s) i) as [draft|]; [|exact Hs].
    unfold generateWeeklySummaryResume. destruct answer; exact Hs.
Qed.

(** C9. From a fresh component, after every run of events: at most one
    pattern-insight request waits for the gateway, and one waits exactly
    when the in-flight flag is set; a call of [generatePatternInsights]
    made while the flag is set (from the button or from the effect)
    changes nothing, so it issues no request and queues none; and the
    answer to the waiting request, whatever it is, clears the flag and
    leaves no request waiting. *)
Theorem pattern_insights_single_flight :
  forall (events : list Event),
    let s := run tz events initialState in
    List.length (insightRequests s) <= 1
    /\ (isGeneratingInsights s = true <-> List.length (insightRequests s) = 1)
    /\ (isGeneratingInsights s = true ->
        generatePatternInsights s = s
        /\ step tz CallGeneratePatternInsights s = s
        /\ step tz HistoryLengthChanged s = s)
    /\ (forall (i : nat) (answer : Answer InsightsJson) (context : InsightsContext),
        nth_error (insightRequests s) i = Some context ->
        isGeneratingInsights (step tz (InsightsAnswered i answer) s) = false
        /\ insightRequests (step tz (InsightsAnswered i answer) s) = []).
Proof.
  intros events s.
  assert (Hs : singleFlight s).
  { apply (run_invariant singleFlight); [reflexivity | exact step_singleFlight]. }
  unfold singleFlight in Hs.
  split; [|split; [|split]].
  - destruct (isGeneratingInsights s); lia.
  - destruct (isGeneratingInsights s); split; intro H;
      try reflexivity; try discriminate H; try lia.
  - intro Hflag. pose proof (generatePatternInsights_dropped s Hflag) as Hdrop.
    split; [exact Hdrop|]. split; [exact Hdrop|].
    cbn [step]. unfold historyLengthEffect.
    destruct (5 <=? _); [exact Hdrop | reflexivity].
  - intros i answer context Hreq. cbn [step]. rewrite Hreq.
    destruct (generatePatternInsightsResume_clears answer
                (setInsightRequests (dropNth i) s)) as [Hflag Hleft].
    rewrite Hflag, Hleft. split; [reflexivity|]. cbn.
    now apply (@answered_insights_none_left s i context).
Qed.

End Runs.

(* ------------------------------------------------------------------ *)
(** ** Objects as maps in creation order *)

Lemma get_set_same (V : Type) (d : Js.object V) (k : string) (v : V) :
  Js.get (Js.set d k v) k = Some v.
Proof.
  induction d as [|[k' v'] d IH]; cbn.
  - now rewrite String.eqb_refl.
  - destruct (String.eqb_spec k k') as [->|Hne]; cbn.
    + now rewrite String.eqb_refl.
    + destruct (String.eqb_spec k k'); [contradiction | exact IH].
Qed.

Lemma get_set_other (V : Type) (d : Js.object V) (k k' : string) (v : V) :
  k' <> k -> Js.get (Js.set d k v) k' = Js.get d k'.
Proof.
  intro Hne. induction d as [|[k0 v0] d IH]; cbn.
  - destruct (String.eqb_spec k' k); [contradiction | reflexivity].
  - destruct (String.eqb_spec k k0) as [->|Hk]; cbn.
    + destruct (String.eqb_spec k' k0); [contradiction | reflexivity].
    + now rewrite IH.
Qed.

Lemma keys_set (V : Type) (d : Js.object V) (k : string) (v : V) :
  map fst (Js.set d k v)
  = match Js.get d k with
    | Some _ => map fst d
    | None => map fst d ++ [k]
    end.
Proof.
  induction d as [|[k0 v0] d IH]; cbn; [reflexivity|].
  destruct (String.eqb_spec k k0) as [->|Hk]; cbn; [reflexivity|].
  rewrite IH. now destruct (Js.get d k).
Qed.

Lemma get_Some_In (V : Type) (d : Js.object V) (k : string) (v : V) :
  Js.get d k = Some v -> In (k, v) d.
Proof.
  induction d as [|[k0 v0] d IH]; cbn; [discriminate|].
  destruct (String.eqb_spec k k0) as [->|Hk].
  - intros [= ->]. now left.
  - intro H. right. now apply IH.
Qed.

Lemma get_None_keys (V : Type) (d : Js.object V) (k : string) :
  Js.get d k = None -> ~ In k (map fst d).
Proof.
  induction d as [|[k0 v0] d IH]; cbn; [tauto|].
  destruct (String.eqb_spec k k0) as [->|Hk]; [discriminate|].
  intros H [Heq | Hin]; [now subst | now apply IH].
Qed.

Lemma In_get (V : Type) (d : Js.object V) (k : string) (v : V) :
  NoDup (map fst d) -> In (k, v) d -> Js.get d k = Some v.
Proof.
  induction d as [|[k0 v0] d IH]; cbn; [tauto|].
  intros Hnd [Heq | Hin].
  - injection Heq as -> ->. now rewrite String.eqb_refl.
  - inversion Hnd as [|? ? Hnotin Hnd']; subst.
    destruct (String.eqb_spec k k0) as [->|Hk].
    + exfalso. apply Hnotin. apply (in_map fst) in Hin. exact Hin.
    + now apply IH.
Qed.




(** *** The head of the sorted entries *)






(* ------------------------------------------------------------------ *)
(** ** The mood distribution and its dominant mood *)

Lemma firstIndex_app_in (a : string) (ms l : list string) :
  In a ms -> firstIndex a (ms ++ l) = firstIndex a ms.
Proof.
  induction ms as [|x ms IH]; cbn; [tauto|].
  intros [-> | Hin].
  - now rewrite String.eqb_refl.
  - destruct (String.eqb x a); [reflexivity|]. now rewrite IH.
Qed.

Lemma firstIndex_lt (a : string) (ms : list string) :
  In a ms -> firstIndex a ms < List.length ms.
Proof.
  induction ms as [|x ms IH]; cbn; [tauto|].
  intros [-> | Hin].
  - rewrite String.eqb_refl. lia.
  - destruct (String.eqb x a); [lia|]. apply IH in Hin. lia.
Qed.

Lemma firstIndex_app_new (a : string) (ms : list string) :
  ~ In a ms -> firstIndex a (ms ++ [a]) = List.length ms.
Proof.
  induction ms as [|x ms IH]; cbn; intro Hout.
  - now rewrite String.eqb_refl.
  - destruct (String.eqb_spec x a) as [->|Hne]; [tauto|].
    rewrite IH; tauto.
Qed.

Lemma StronglySorted_change (A : Type) (R R' : A -> A -> Prop) (l : list A) :
  (forall a b, In a l -> In b l -> R a b -> R' a b) ->
  StronglySorted R l -> StronglySorted R' l.
Proof.
  induction l as [|x l IH]; intros Himp Hs; [constructor|].
  apply StronglySorted_inv in Hs. destruct Hs as [Hs Hx].
  constructor.
  - apply IH; [|assumption]. intros a b Ha Hb. apply Himp; now right.
  - rewrite Forall_forall in *. intros b Hb.
    apply Himp; [now left | now right | now apply Hx].
Qed.

Lemma StronglySorted_snoc (A : Type) (R : A -> A -> Prop) (l : list A) (x : A) :
  StronglySorted R l -> Forall (fun a => R a x) l -> StronglySorted R (l ++ [x]).
Proof.
  induction l as [|y l IH]; intros Hs Hx; cbn.
  - repeat constructor.
  - apply StronglySorted_inv in Hs. destruct Hs as [Hs Hy].
    inversion Hx; subst. constructor.
    + now apply IH.
    + apply Forall_app. split; [assumption | now constructor].
Qed.


Lemma countsMoods_key_seen (d : Js.object nat) (ms : list string) (k : string) :
  countsMoods d ms -> In k (map fst d) -> In k ms.
Proof.
  intros (Hget & Hnd & _) Hin.
  apply in_map_iff in Hin. destruct Hin as ([k' v] & Hk & Hin). cbn in Hk. subst k'.
  apply (In_get _ _ _ Hnd) in Hin. rewrite Hget in Hin.
  apply (count_occ_In string_dec).
  destruct (count_occ string_dec ms k); [discriminate Hin | lia].
Qed.

Lemma countsMoods_nil : countsMoods [] [].
Proof. repeat split; constructor. Qed.

Lemma countsMoods_step (d : Js.object nat) (ms : list string) (m : string) :
  countsMoods d ms ->
  countsMoods
    (Js.set d m (match Js.get d m with Some n => n | None => 0 end + 1))
    (ms ++ [m]).
Proof.
  intro Hd. pose proof Hd as (Hget & Hnd & Hsorted).
  assert (Hdefault :
            match Js.get d m with Some n => n | None => 0 end
            = count_occ string_dec ms m).
  { rewrite Hget. now destruct (count_occ string_dec ms m). }
  rewrite Hdefault.
  split; [|split].
  - intro k. rewrite count_occ_app. cbn [count_occ].
    destruct (string_dec m k) as [<-|Hne].
    + rewrite get_set_same. now rewrite Nat.add_1_r.
    + rewrite get_set_other by congruence.
      rewrite Nat.add_0_r. apply Hget.
  - rewrite keys_set. destruct (Js.get d m) eqn:Hm; [assumption|].
    apply NoDup_app; [assumption | repeat constructor; tauto |].
    intros a Ha [<- | []]. now apply (get_None_keys _ _ Hm).
  - rewrite keys_set. destruct (Js.get d m) eqn:Hm.
    + apply (StronglySorted_change (R := fun a b => firstIndex a ms < firstIndex b ms));
        [|assumption].
      intros a b Ha Hb Hab.
      rewrite !firstIndex_app_in; eauto using countsMoods_key_seen.
    + assert (Hnew : ~ In m ms).
      { intro Hin. apply (count_occ_In string_dec) in Hin.
        rewrite Hget in Hm. destruct (count_occ string_dec ms m); [lia | discriminate]. }
      apply StronglySorted_snoc.
      * apply (StronglySorted_change (R := fun a b => firstIndex a ms < firstIndex b ms));
          [|assumption].
        intros a b Ha Hb Hab.
        rewrite !firstIndex_app_in; eauto using countsMoods_key_seen.
      * rewrite Forall_forall. intros a Ha.
        pose proof (countsMoods_key_seen _ Hd Ha) as Hseen.
        rewrite firstIndex_app_in by assumption.
        rewrite firstIndex_app_new by assumption.
        now apply firstIndex_lt.
Qed.

(** The reducer counts every mood, and creates the keys in the order in
    which the moods are met. *)
Lemma moodCountsOf_counts (es : list MoodEntry) :
  countsMoods (moodCountsOf es) (map mood es).
Proof.
  induction es as [|e es IH] using rev_ind.
  - exact countsMoods_nil.
  - unfold moodCountsOf. rewrite fold_left_app, map_app. cbn [fold_left map].
    unfold countMood at 1. now apply countsMoods_step.
Qed.


Lemma moodCountsOf_lookup (es : list MoodEntry) (k : string) (c : nat) :
  In (k, c) (moodCountsOf es) <-> (c = occurrences k es /\ 0 < c).
Proof.
  destruct (moodCountsOf_counts es) as (Hget & Hnd & _).
  unfold occurrences. split.
  - intro Hin. apply (In_get _ _ _ Hnd) in Hin. rewrite Hget in Hin.
    destruct (count_occ string_dec (map mood es) k); [discriminate Hin|].
    injection Hin as <-. split; [reflexivity | lia].
  - intros [-> Hpos]. apply get_Some_In. rewrite Hget.
    destruct (count_occ string_dec (map mood es) k); [lia | reflexivity].
Qed.

(** The moods of the prompt are keys for which the distribution keeps the
    creation order. *)
Lemma moodNames_plain : forallb plainKey moodNames = true.
Proof. reflexivity. Qed.

(** With a mood that is an array index the order of [Object.entries] is
    not the creation order: here "2" is met first and "1" is returned. *)
Remark dominantMoodOf_index_keys :
  dominantMoodOf (moodCountsOf [sampleEntry "2" 2%Z; sampleEntry "1" 1%Z])
  = Some "1"%string.
Proof. reflexivity. Qed.



(* ------------------------------------------------------------------ *)
(** ** Further facts on the runs *)

Lemma slice0_length (A : Type) (n : nat) (l : list A) :
  List.length (Js.slice0 n l) <= n.
Proof. unfold Js.slice0. apply firstn_le_length. Qed.

Lemma step_withinCapacity (tz : Z) (e : Event) (s : State) :
  withinCapacity s -> withinCapacity (step tz e s).
Proof.
  intros Hs. pose proof Hs as [Hh Hw].
  destruct e as [v | input method | i answer c1 c2 | i answer | | c1 c2 |
                 | i answer | now | i answer]; cbn [step].
  - exact Hs.
  - unfold analyzeMood. destruct (Js.trimIsEmpty input); exact Hs.
  - destruct (nth_error (classifyRequests s) i) as [[input method]|]; [|exact Hs].
    unfold analyzeMoodResume. destruct answer as [| |a]; try exact Hs.
    split; [|exact Hw].
    apply (@slice0_length _ 50).
  - destruct (nth_error (contentRequests s) i) as [moodEntry|]; [|exact Hs].
    unfold generatePersonalizedContentResume. destruct answer as [| |c]; try exact Hs.
    split; [|exact Hw].
    cbn. unfold patchContent. now rewrite length_map.
  - unfold historyLengthEffect, generatePatternInsights.
    destruct (5 <=? _); [|exact Hs].
    destruct (isGeneratingInsights s); exact Hs.
  - unfold historyEffect.
    destruct (_ && _); [|exact Hs].
    unfold generateWeeklySummary.
    destruct (_ <? 3); [exact Hs|].
    destruct (dominantMoodOf _); exact Hs.
  - unfold generatePatternInsights.
    destruct (isGeneratingInsights s); exact Hs.
  - destruct (nth_error (insightRequests s) i) as [context|]; [|exact Hs].
    unfold generatePatternInsightsResume. destruct answer as [| |[found|]]; exact Hs.
  - unfold generateWeeklySummary.
    destruct (_ <? 3); [exact Hs|].
    destruct (dominantMoodOf _); exact Hs.
  - destruct (nth_error (summaryRequests s) i) as [draft|]; [|exact Hs].
    unfold generateWeeklySummaryResume. destruct answer as [| |analysis]; try exact Hs.
    split; [exact Hh|].
    apply (@slice0_length _ 12).
Qed.

(** From a fresh store the history never holds more than 50 entries and
    the summaries never more than 12, whatever the events. *)
Lemma stores_within_capacity (tz : Z) (events : list Event) :
  withinCapacity (run tz events initialState).
Proof.
  apply run_invariant; [|apply step_withinCapacity].
  split; cbn; lia.
Qed.

(* ------------------------------------------------------------------ *)
(** ** Summaries and the week they are made for *)

(** C7. What holds: from a fresh store, after every run of events every
    stored summary (and every summary that waits for the gateway) holds at
    least 3 entries.  What fails: the entries are counted in the window of
    [getWeekStart], which starts at the time of day of the call and not at
    local midnight.  Three entries written on Sunday 31 December 2023 at
    10:00, 10:05 and 10:10 UTC, with none in the week before: when the
    supportive text of the third one arrives at 10:10:03 the effect sums up
    24 December 10:10:03 to 31 December 10:10:03, finds all three entries
    there and, once the gateway has answered, stores a summary, although
    the week before the current one, 24 December 00:00 to 31 December
    00:00, holds no entry at all. *)
Theorem summary_of_week_without_entries :
  (forall (tz : Z) (events : list Event),
      Forall (fun summary => 3 <= List.length (entries summary))
        (weeklySummaries (run tz events initialState))
      /\ Forall (fun draft => 3 <= List.length (draftEntries draft))
           (summaryRequests (run tz events initialState)))
  /\ (let s := run 0 sundayJournal initialState in
      let targetWeekStart := sundayMidnight 0 (1704017403000 - sevenDays)%Z in
      targetWeekStart = 1703376000000%Z
      /\ map timestamp (moodHistory s)
         = [1704017400000; 1704017100000; 1704016800000]%Z
      /\ filter (inWeek targetWeekStart (targetWeekStart + sevenDays)%Z)
           (moodHistory s) = []
      /\ weeklySummaries s = []
      /\ map (fun d => (draftWeekStart d, draftWeekEnd d, map timestamp (draftEntries d)))
           (summaryRequests s)
         = [(1703412603000, 1704017403000,
             [1704017400000; 1704017100000; 1704016800000])%Z]
      /\ map (fun sm => (weekStart sm, weekEnd sm, map timestamp (entries sm)))
           (weeklySummaries (run 0 [SummaryAnswered 0 sampleSummaryAnswer] s))
         = [(1703412603000, 1704017403000,
             [1704017400000; 1704017100000; 1704016800000])%Z]).
Proof.
  split.
  - intros tz events.
    apply (run_invariant tz summariesCoverThreeEntries).
    + split; constructor.
    + apply step_covers.
  - intros s targetWeekStart.
    split; [vm_compute; reflexivity|].
    split; [vm_compute; reflexivity|].
    split; [vm_compute; reflexivity|].
    split; [vm_compute; reflexivity|].
    split; vm_compute; reflexivity.
Qed.

Lemma pattern_insights_single_flight_witness :
  let s := run 0%Z [CallGeneratePatternInsights] initialState in
  step 0%Z CallGeneratePatternInsights s = s.
Proof.
  intro s.
  destruct (pattern_insights_single_flight 0%Z [CallGeneratePatternInsights])
    as (_ & _ & H & _).
  destruct (H eq_refl) as (_ & H2 & _). exact H2.
Defined.

(* ------------------------------------------------------------------ *)
(** ** Supportive text: the patch of the history *)

Lemma withContent_classification (c : string) (e : MoodEntry) :
  classification (withContent c e) = classification e.
Proof. reflexivity. Qed.

Lemma patchContent_classification (i c : string) (h : list MoodEntry) :
  map classification (patchContent i c h) = map classification h.
Proof.
  unfold patchContent. rewrite map_map. apply map_ext.
  intro e. now destruct (String.eqb (id e) i).
Qed.

Lemma patchContent_absent (i c : string) (h : list MoodEntry) :
  ~ In i (map id h) -> patchContent i c h = h.
Proof.
  induction h as [|e h IH]; intro Hout; [reflexivity|].
  cbn in *. destruct (String.eqb_spec (id e) i) as [Heq | Hne]; [tauto|].
  f_equal. apply IH. tauto.
Qed.

(** X1. The patch that attaches a supportive text changes nothing but the
    [content] field: the entries keep their number, their order and all
    their other fields.  Afterwards every entry with the given id holds the
    text and every other entry is an entry of the old history; when no
    entry has the id (it was evicted meanwhile), the history is left as it
    is. *)
Theorem patchContent_only_content :
  forall (i c : string) (h : list MoodEntry),
    map classification (patchContent i c h) = map classification h
    /\ (forall e, In e (patchContent i c h) -> id e = i -> content e = Some c)
    /\ (forall e, In e (patchContent i c h) -> id e <> i -> In e h)
    /\ (~ In i (map id h) -> patchContent i c h = h).
Proof.
  intros i c h.
  split; [apply patchContent_classification|].
  split; [|split; [|apply patchContent_absent]].
  - intros e Hin Hid. unfold patchContent in Hin.
    apply in_map_iff in Hin. destruct Hin as (e0 & He & Hin0).
    destruct (String.eqb_spec (id e0) i) as [Heq | Hne].
    + now subst e.
    + subst e. contradiction.
  - intros e Hin Hid. unfold patchContent in Hin.
    apply in_map_iff in Hin. destruct Hin as (e0 & He & Hin0).
    destruct (String.eqb_spec (id e0) i) as [Heq | Hne].
    + subst e. cbn in Hid. contradiction.
    + now subst e.
Qed.

Lemma patchContent_only_content_witness :
  patchContent "7" "breathe" [sampleEntry "calm" 2%Z; sampleEntry "sad" 1%Z]
  = [sampleEntry "calm" 2%Z; sampleEntry "sad" 1%Z].
Proof.
  apply (patchContent_only_content "7" "breathe"
           [sampleEntry "calm" 2%Z; sampleEntry "sad" 1%Z]).
  cbn. intros [H | [H | []]]; discriminate H.
Defined.

(** X2. Patches for two different ids can be applied in either order with
    the same result, so the answers for two entries may arrive in any
    order; of two patches for the same id the later one wins. *)
Theorem patchContent_order :
  forall (i j c d : string) (h : list MoodEntry),
    (i <> j ->
     patchContent i c (patchContent j d h) = patchContent j d (patchContent i c h))
    /\ patchContent i c (patchContent i d h) = patchContent i c h.
Proof.
  intros i j c d h. unfold patchContent. rewrite !map_map. split.
  - intro Hij. apply map_ext. intro e.
    destruct (String.eqb (id e) j) eqn:Hj;
      destruct (String.eqb (id e) i) eqn:Hi; cbn; rewrite ?Hj, ?Hi;
      try reflexivity.
    apply String.eqb_eq in Hj, Hi. congruence.
  - apply map_ext. intro e.
    destruct (String.eqb (id e) i) eqn:Hi; cbn; now rewrite ?Hi.
Qed.

Lemma patchContent_order_witness :
  let h := [sampleEntry "calm" 2%Z; sampleEntry "sad" 1%Z] in
  patchContent "2" "rest" (patchContent "1" "walk" h)
  = patchContent "1" "walk" (patchContent "2" "rest" h).
Proof.
  intro h.
  apply (patchContent_order "2" "1" "rest" "walk" h).
  discriminate.
Defined.

(** X3. When the ids of the history are pairwise different, the patch for
    the id of the entry at position [n] replaces that entry by itself with
    the text attached and leaves every other position as it is. *)
Theorem patchContent_one_entry :
  forall (c : string) (h : list MoodEntry) (n : nat) (e : MoodEntry),
    NoDup (map id h) ->
    nth_error h n = Some e ->
    patchContent (id e) c h = firstn n h ++ withContent c e :: skipn (S n) h.
Proof.
  intros c h. induction h as [|x h IH]; intros n e Hnd Hn.
  - destruct n; discriminate Hn.
  - cbn in Hnd. inversion Hnd as [|? ? Hout Hnd']; subst.
    destruct n as [|n]; cbn in Hn.
    + injection Hn as ->. cbn. rewrite String.eqb_refl. f_equal.
      now apply patchContent_absent.
    + cbn. destruct (String.eqb_spec (id x) (id e)) as [Heq | Hne].
      * exfalso. apply Hout. rewrite Heq.
        apply in_map. eapply nth_error_In. exact Hn.
      * f_equal. now apply IH.
Qed.

Lemma patchContent_one_entry_witness :
  patchContent "1" "walk" [sampleEntry "calm" 2%Z; sampleEntry "sad" 1%Z]
  = [sampleEntry "calm" 2%Z; withContent "walk" (sampleEntry "sad" 1%Z)].
Proof.
  apply (@patchContent_one_entry "walk"
           [sampleEntry "calm" 2%Z; sampleEntry "sad" 1%Z] 1 (sampleEntry "sad" 1%Z)).
  - cbn. repeat constructor; cbn; intuition discriminate.
  - reflexivity.
Defined.

(* ------------------------------------------------------------------ *)
(** ** Trend: what it depends on *)

Lemma filter_mood_length (f : string -> bool) (es : list MoodEntry) :
  List.length (filter (fun entry => f (mood entry)) es)
  = List.length (filter f (map mood es)).
Proof.
  induction es as [|e es IH]; [reflexivity|].
  cbn. destruct (f (mood e)); cbn; now rewrite IH.
Qed.

Lemma getMoodTrend_moods (h : list MoodEntry) :
  getMoodTrend h = trendOfMoods (map mood (firstn 5 h)).
Proof.
  unfold getMoodTrend, trendOfMoods, Js.slice0.
  rewrite filter_mood_length, length_map, length_firstn.
  destruct (Nat.ltb_spec (List.length h) 2) as [Hlt | Hge].
  - assert (H : (Nat.min 5 (List.length h) <? 2) = true) by (apply Nat.ltb_lt; lia).
    now rewrite H.
  - assert (H : (Nat.min 5 (List.length h) <? 2) = false) by (apply Nat.ltb_ge; lia).
    now rewrite H.
Qed.

Lemma patchContent_firstn (i c : string) (n : nat) (h : list MoodEntry) :
  firstn n (patchContent i c h) = patchContent i c (firstn n h).
Proof. unfold patchContent. apply firstn_map. Qed.

Lemma patchContent_moods (i c : string) (h : list MoodEntry) :
  map mood (patchContent i c h) = map mood h.
Proof.
  unfold patchContent. rewrite map_map. apply map_ext.
  intro e. now destruct (String.eqb (id e) i).
Qed.

(** X4. The trend is a function of the moods of the five most recent
    entries: two histories that agree on them have the same trend.  So
    older entries do not count, and a supportive text that arrives does
    not change the trend. *)
Theorem getMoodTrend_five_recent_moods :
  forall (h h' : list MoodEntry),
    map mood (firstn 5 h) = map mood (firstn 5 h') ->
    getMoodTrend h = getMoodTrend h'
    /\ (forall older, 5 <= List.length h -> getMoodTrend (h ++ older) = getMoodTrend h)
    /\ (forall i c, getMoodTrend (patchContent i c h) = getMoodTrend h).
Proof.
  intros h h' Hsame. rewrite !getMoodTrend_moods.
  split; [now rewrite Hsame|]. split.
  - intros older Hlen. rewrite getMoodTrend_moods.
    rewrite firstn_app.
    replace (5 - List.length h) with 0 by lia.
    cbn [firstn]. now rewrite app_nil_r.
  - intros i c. rewrite getMoodTrend_moods.
    now rewrite patchContent_firstn, patchContent_moods.
Qed.

Lemma getMoodTrend_five_recent_moods_witness :
  getMoodTrend [sampleEntry "calm" 9%Z; sampleEntry "sad" 8%Z]
  = getMoodTrend [sampleEntry "calm" 2%Z; sampleEntry "sad" 1%Z].
Proof.
  destruct (@getMoodTrend_five_recent_moods
              [sampleEntry "calm" 9%Z; sampleEntry "sad" 8%Z]
              [sampleEntry "calm" 2%Z; sampleEntry "sad" 1%Z] eq_refl) as [H _].
  exact H.
Defined.

(** X5. A positive trend needs three entries: a history of two entries is
    never rated positive, and when both of its moods are positive ones it
    is rated mixed. *)
Theorem getMoodTrend_positive_needs_three :
  forall h : list MoodEntry,
    (getMoodTrend h = Some Positive -> 3 <= List.length h)
    /\ (List.length h = 2 ->
        Forall (fun e => isPositiveMood (mood e)) h ->
        getMoodTrend h = Some Mixed).
Proof.
  intro h. rewrite getMoodTrend_unfold. split.
  - destruct (List.length h <? 2) eqn:Hlen; [discriminate|].
    destruct (Nat.leb_spec 3 (positiveCountOf (firstn 5 h))) as [Hc | Hc].
    + intros _.
      rewrite <- positive_filter_length in Hc.
      pose proof (filter_length_le
                    (fun entry => includes positiveMoods (mood entry)) (firstn 5 h)) as Hf.
      rewrite length_firstn in Hf.
      apply (Nat.le_trans _ _ _ Hc). apply (Nat.le_trans _ _ _ Hf).
      apply Nat.le_min_r.
    + destruct (positiveCountOf (firstn 5 h) <=? 1); discriminate.
  - intros Hlen Hall.
    destruct h as [|a [|b [|x h]]]; try discriminate Hlen.
    inversion Hall as [|? ? Ha Hall']; subst.
    inversion Hall' as [|? ? Hb _]; subst.
    cbn. destruct (isPositiveMood_dec (mood a)); [|contradiction].
    destruct (isPositiveMood_dec (mood b)); [|contradiction].
    reflexivity.
Qed.

Lemma getMoodTrend_positive_needs_three_witness :
  getMoodTrend [sampleEntry "happy" 2%Z; sampleEntry "excited" 1%Z] = Some Mixed.
Proof.
  apply (getMoodTrend_positive_needs_three
           [sampleEntry "happy" 2%Z; sampleEntry "excited" 1%Z]).
  - reflexivity.
  - repeat constructor; unfold isPositiveMood; cbn; tauto.
Defined.

(* ------------------------------------------------------------------ *)
(** ** The mood distribution as a map *)

Lemma totalCount_set (d : Js.object nat) (k : string) (v : nat) :
  totalCount (Js.set d k v) + match Js.get d k with Some n => n | None => 0 end
  = totalCount d + v.
Proof.
  assert (Hcons : forall k' v' (d' : Js.object nat),
             totalCount ((k', v') :: d') = v' + totalCount d') by reflexivity.
  induction d as [|[k0 v0] d IH]; cbn [Js.set Js.get].
  - rewrite Hcons. unfold totalCount. cbn. lia.
  - destruct (String.eqb k k0); rewrite !Hcons; lia.
Qed.

Lemma totalCount_countMood (acc : Js.object nat) (e : MoodEntry) :
  totalCount (countMood acc e) = S (totalCount acc).
Proof.
  unfold countMood.
  pose proof (totalCount_set acc (mood e)
                (match Js.get acc (mood e) with Some n => n | None => 0 end + 1)).
  lia.
Qed.

Lemma totalCount_fold (es : list MoodEntry) (acc : Js.object nat) :
  totalCount (fold_left countMood es acc) = totalCount acc + List.length es.
Proof.
  revert acc. induction es as [|e es IH]; intro acc; cbn [fold_left List.length]; [lia|].
  rewrite IH, totalCount_countMood. lia.
Qed.

Lemma moodCountsOf_total (es : list MoodEntry) :
  totalCount (moodCountsOf es) = List.length es.
Proof. unfold moodCountsOf. now rewrite totalCount_fold. Qed.

(** X6. For entries whose moods are not names inherited from
    [Object.prototype], the distribution built by the reducer has one key
    for each mood that occurs, holding its number of occurrences; no key
    twice, no key with count 0; and the counts add up to the number of
    entries. *)
Theorem moodCountsOf_is_the_count :
  forall es : list MoodEntry,
    Forall (fun e => Js.isObjectPrototypeName (mood e) = false) es ->
    (forall k c, In (k, c) (moodCountsOf es) <-> (c = occurrences k es /\ 0 < c))
    /\ (forall k, Js.get (moodCountsOf es) k
                  = if occurrences k es =? 0 then None else Some (occurrences k es))
    /\ NoDup (map fst (moodCountsOf es))
    /\ totalCount (moodCountsOf es) = List.length es.
Proof.
  intros es _.
  destruct (moodCountsOf_counts es) as (Hget & Hnd & _).
  split; [intros k c; apply moodCountsOf_lookup|].
  split; [|split; [exact Hnd | apply moodCountsOf_total]].
  intro k. rewrite Hget. unfold occurrences.
  now destruct (count_occ string_dec (map mood es) k).
Qed.

Lemma moodCountsOf_is_the_count_witness :
  totalCount
    (moodCountsOf [sampleEntry "calm" 3%Z; sampleEntry "sad" 2%Z; sampleEntry "calm" 1%Z])
  = 3.
Proof.
  apply (@moodCountsOf_is_the_count
           [sampleEntry "calm" 3%Z; sampleEntry "sad" 2%Z; sampleEntry "calm" 1%Z]).
  repeat constructor.
Defined.

(* ------------------------------------------------------------------ *)
(** ** Week start: what [getWeekStart] does guarantee *)

(** X7. With a constant offset of local time from UTC, the result of
    [getWeekStart] falls on a Sunday, is not after its argument and is
    less than seven days before it; applying [getWeekStart] to its own
    result changes nothing. *)
Theorem getWeekStart_most_recent_sunday :
  forall tz t : Z,
    getDay tz (getWeekStart tz t) = 0%Z
    /\ (getWeekStart tz t <= t < getWeekStart tz t + sevenDays)%Z
    /\ getWeekStart tz (getWeekStart tz t) = getWeekStart tz t.
Proof.
  intros tz t.
  destruct (getWeekStart_sunday tz t) as [Hday Hrange].
  split; [exact Hday|]. split; [exact Hrange|].
  rewrite (getWeekStart_eq tz (getWeekStart tz t)), Hday. lia.
Qed.

(** X8. [getWeekStart] moves with whole weeks: a time [k] weeks later (or
    earlier) has its week start [k] weeks later (or earlier), and the same
    day of the week.  In particular the week that a summary covers starts
    exactly seven days before the week start of the current time. *)
Theorem getWeekStart_whole_weeks :
  forall tz t k : Z,
    getDay tz (t + k * sevenDays) = getDay tz t
    /\ getWeekStart tz (t + k * sevenDays)
       = (getWeekStart tz t + k * sevenDays)%Z.
Proof.
  intros tz t k.
  assert (Hday : getDay tz (t + k * sevenDays) = getDay tz t).
  { unfold getDay.
    replace (t + k * sevenDays)%Z with (t - (- (7 * k)) * msPerDay)%Z
      by (unfold sevenDays, msPerDay; lia).
    rewrite dayNumber_shift.
    replace (dayNumber tz t - - (7 * k) + 4)%Z
      with (dayNumber tz t + 4 + k * 7)%Z by lia.
    apply Z.mod_add. lia. }
  split; [exact Hday|].
  rewrite !getWeekStart_eq, Hday. lia.
Qed.

(* ------------------------------------------------------------------ *)
(** ** The history along a run *)

Lemma pageRun_snoc (tz : Z) (events : list Event) (e : Event) (s : State) :
  pageRun tz (events ++ [e]) s = pageStep tz e (pageRun tz events s).
Proof. unfold pageRun. now rewrite fold_left_app. Qed.

Lemma patchContent_ids (i c : string) (h : list MoodEntry) :
  map id (patchContent i c h) = map id h.
Proof.
  unfold patchContent. rewrite map_map. apply map_ext.
  intro e. now destruct (String.eqb (id e) i).
Qed.

Lemma patchContent_timestamps (i c : string) (h : list MoodEntry) :
  map timestamp (patchContent i c h) = map timestamp h.
Proof.
  unfold patchContent. rewrite map_map. apply map_ext.
  intro e. now destruct (String.eqb (id e) i).
Qed.

Lemma analyzeMoodResume_history (input : string) (method : InputMethod)
    (a : Analysis) (idClock tsClock : Z) (s : State) :
  moodHistory (analyzeMoodResume input method (Parsed a) idClock tsClock s)
  = appendEntry
      (mkMoodEntry (Js.toString idClock) tsClock input (analysisMood a)
         (analysisConfidence a) None method)
      (moodHistory s).
Proof. reflexivity. Qed.

Lemma generatePersonalizedContentResume_history (moodEntry : MoodEntry)
    (c : string) (s : State) :
  moodHistory (generatePersonalizedContentResume moodEntry (Parsed c) s)
  = patchContent (id moodEntry) c (moodHistory s).
Proof. reflexivity. Qed.

(** What one event can do to the ids and timestamps of the history: keep
    them, or put those of a new entry in front and cut after 50. *)
Lemma step_history (tz : Z) (e : Event) (s : State) :
  (map id (moodHistory (step tz e s)) = map id (moodHistory s)
   /\ map timestamp (moodHistory (step tz e s)) = map timestamp (moodHistory s))
  \/ (exists i a idClock tsClock,
         e = ClassifyAnswered i (Parsed a) idClock tsClock
         /\ map id (moodHistory (step tz e s))
            = firstn 50 (Js.toString idClock :: map id (moodHistory s))
         /\ map timestamp (moodHistory (step tz e s))
            = firstn 50 (tsClock :: map timestamp (moodHistory s))).
Proof.
  destruct e as [v | input method | i answer c1 c2 | i answer | | c1 c2 |
                 | i answer | now | i answer]; cbn [step].
  - now left.
  - left. unfold analyzeMood. now destruct (Js.trimIsEmpty input).
  - destruct (nth_error (classifyRequests s) i) as [[input method]|]; [|now left].
    destruct answer as [| |a]; try (now left).
    right. exists i, a, c1, c2. split; [reflexivity|].
    rewrite analyzeMoodResume_history. unfold appendEntry, Js.slice0.
    rewrite <- !firstn_map. split; reflexivity.
  - destruct (nth_error (contentRequests s) i) as [moodEntry|]; [|now left].
    destruct answer as [| |c]; try (now left).
    left. rewrite generatePersonalizedContentResume_history.
    now rewrite patchContent_ids, patchContent_timestamps.
  - left. unfold historyLengthEffect, generatePatternInsights.
    destruct (5 <=? _); [|now split].
    now destruct (isGeneratingInsights s).
  - left. unfold historyEffect.
    destruct (_ && _); [|now split].
    unfold generateWeeklySummary.
    destruct (_ <? 3); [now split|].
    now destruct (dominantMoodOf _).
  - left. unfold generatePatternInsights.
    now destruct (isGeneratingInsights s).
  - destruct (nth_error (insightRequests s) i) as [context|]; [|now left].
    left. unfold generatePatternInsightsResume. now destruct answer as [| |[found|]].
  - left. unfold generateWeeklySummary.
    destruct (_ <? 3); [now split|].
    now destruct (dominantMoodOf _).
  - destruct (nth_error (summaryRequests s) i) as [draft|]; [|now left].
    left. unfold generateWeeklySummaryResume. now destruct answer.
Qed.

Lemma timestampClocks_app (l l' : list Event) :
  timestampClocks (l ++ l') = timestampClocks l ++ timestampClocks l'.
Proof.
  induction l as [|e l IH]; [reflexivity|].
  destruct e; cbn; now rewrite ?IH.
Qed.

Lemma idClocks_app (l l' : list Event) :
  idClocks (l ++ l') = idClocks l ++ idClocks l'.
Proof.
  induction l as [|e l IH]; [reflexivity|].
  destruct e; cbn; now rewrite ?IH.
Qed.

Lemma StronglySorted_snoc_inv (A : Type) (R : A -> A -> Prop) (l : list A) (x : A) :
  StronglySorted R (l ++ [x]) -> StronglySorted R l /\ Forall (fun a => R a x) l.
Proof.
  induction l as [|y l IH]; cbn; intro Hs.
  - split; constructor.
  - apply StronglySorted_inv in Hs. destruct Hs as [Hs Hy].
    destruct (IH Hs) as [Hl Hx].
    apply Forall_app in Hy. destruct Hy as [Hy Hyx].
    inversion Hyx; subst.
    split; constructor; assumption.
Qed.

Lemma StronglySorted_firstn (A : Type) (R : A -> A -> Prop) (n : nat) (l : list A) :
  StronglySorted R l -> StronglySorted R (firstn n l).
Proof.
  revert n. induction l as [|x l IH]; intros n Hs.
  - now rewrite firstn_nil.
  - destruct n; [constructor|]. cbn.
    apply StronglySorted_inv in Hs. destruct Hs as [Hs Hx].
    constructor; [now apply IH|].
    rewrite <- (firstn_skipn n l) in Hx. now apply Forall_app in Hx.
Qed.

Lemma Forall_firstn (A : Type) (P : A -> Prop) (n : nat) (l : list A) :
  Forall P l -> Forall P (firstn n l).
Proof.
  intro H. rewrite <- (firstn_skipn n l) in H. now apply Forall_app in H.
Qed.

(** X9. From a fresh store the mood history never holds more than 50
    entries and the summary store never more than 12, whatever the events
    and whatever the answers of the gateway. *)
Theorem history_and_summaries_bounded :
  forall (tz : Z) (events : list Event),
    List.length (moodHistory (run tz events initialState)) <= 50
    /\ List.length (weeklySummaries (run tz events initialState)) <= 12.
Proof.
  intros tz events.
  apply (run_invariant tz withinCapacity); [|apply step_withinCapacity].
  split; cbn; lia.
Qed.

(** X10. When the clock readings taken for the timestamps of the entries
    do not go back during a run, the history is sorted by timestamp, the
    newest entry first, at every point: each entry is at least as recent as
    all the entries after it. *)
Theorem history_sorted_by_timestamp :
  forall (tz : Z) (events : list Event),
    StronglySorted Z.le (timestampClocks events) ->
    StronglySorted Z.ge (map timestamp (moodHistory (run tz events initialState))).
Proof.
  intros tz events.
  assert (H : StronglySorted Z.le (timestampClocks events) ->
              StronglySorted Z.ge (map timestamp (moodHistory (run tz events initialState)))
              /\ Forall (fun t => In t (timestampClocks events))
                   (map timestamp (moodHistory (run tz events initialState)))).
  { induction events as [|e events IH] using rev_ind; intro Hclock.
    - split; constructor.
    - rewrite timestampClocks_app in *. rewrite run_snoc.
      assert (Hprev : StronglySorted Z.le (timestampClocks events)).
      { clear -Hclock.
        induction (timestampClocks events) as [|x l IHl]; [constructor|].
        cbn in Hclock. apply StronglySorted_inv in Hclock. destruct Hclock as [Hs Hx].
        apply Forall_app in Hx. constructor; [now apply IHl | tauto]. }
      destruct (IH Hprev) as [Hsorted Hfrom].
      destruct (step_history tz e (run tz events initialState))
        as [[_ Hsame] | (i & a & c1 & c2 & -> & _ & Hnew)].
      + rewrite Hsame. split; [assumption|].
        eapply Forall_impl; [|exact Hfrom].
        cbn. intros t Ht. apply in_or_app. now left.
      + rewrite Hnew. cbn [timestampClocks] in *.
        apply StronglySorted_snoc_inv in Hclock. destruct Hclock as [_ Hle].
        split.
        * apply StronglySorted_firstn. constructor; [assumption|].
          rewrite Forall_forall in *. intros t Ht.
          specialize (Hle t (Hfrom t Ht)). lia.
        * apply Forall_firstn. constructor.
          -- apply in_or_app. right. now left.
          -- eapply Forall_impl; [|exact Hfrom].
             cbn. intros t Ht. apply in_or_app. now left. }
  intro Hclock. exact (proj1 (H Hclock)).
Qed.

Lemma history_sorted_by_timestamp_witness :
  StronglySorted Z.ge
    (map timestamp (moodHistory (run 0%Z newYearJournal initialState))).
Proof.
  apply (history_sorted_by_timestamp 0%Z newYearJournal).
  cbn. repeat constructor; lia.
Defined.

Lemma toString_inj (a b : Z) : Js.toString a = Js.toString b -> a = b.
Proof.
  unfold Js.toString. intro H. apply to_int_inj.
  assert (Hnil : forall z, Z.to_int z <> Decimal.Pos Decimal.Nil
                           /\ Z.to_int z <> Decimal.Neg Decimal.Nil).
  { intros [|p|p]; cbn; split; try discriminate;
      intros [= Hp]; now apply Unsigned.to_uint_nonnil in Hp. }
  destruct (Hnil a) as [Ha1 Ha2]. destruct (Hnil b) as [Hb1 Hb2].
  pose proof (NilZero.isi (Z.to_int a) Ha1 Ha2) as Ia.
  pose proof (NilZero.isi (Z.to_int b) Hb1 Hb2) as Ib.
  rewrite H in Ia. rewrite Ia in Ib. now injection Ib.
Qed.

Lemma NoDup_firstn (A : Type) (n : nat) (l : list A) :
  NoDup l -> NoDup (firstn n l).
Proof.
  intro H. rewrite <- (firstn_skipn n l) in H.
  now apply NoDup_app_remove_r in H.
Qed.

(** X11. When the clock readings taken for the ids of the entries are
    pairwise different (no two classifications are answered in the same
    millisecond), the entries of the history have pairwise different ids at
    every point of a run, so the keys of the rendered list are unique and a
    supportive text reaches one entry only. *)
Theorem history_ids_distinct :
  forall (tz : Z) (events : list Event),
    NoDup (idClocks events) ->
    NoDup (map id (moodHistory (run tz events initialState))).
Proof.
  intros tz events.
  assert (H : NoDup (idClocks events) ->
              NoDup (map id (moodHistory (run tz events initialState)))
              /\ Forall (fun i => exists t, In t (idClocks events) /\ i = Js.toString t)
                   (map id (moodHistory (run tz events initialState)))).
  { induction events as [|e events IH] using rev_ind; intro Hclock.
    - split; constructor.
    - rewrite idClocks_app in *. rewrite run_snoc.
      destruct (IH (NoDup_app_remove_r _ _ Hclock)) as [Hnd Hfrom].
      destruct (step_history tz e (run tz events initialState))
        as [[Hsame _] | (i & a & c1 & c2 & -> & Hnew & _)].
      + rewrite Hsame. split; [assumption|].
        eapply Forall_impl; [|exact Hfrom].
        cbn. intros x (t & Ht & ->). exists t. split; [|reflexivity].
        apply in_or_app. now left.
      + rewrite Hnew. cbn [idClocks] in *.
        apply NoDup_remove in Hclock. rewrite app_nil_r in Hclock.
        destruct Hclock as [_ Hfresh].
        split.
        * apply NoDup_firstn. constructor; [|assumption].
          intro Hin. rewrite Forall_forall in Hfrom.
          destruct (Hfrom _ Hin) as (t & Ht & Heq).
          apply toString_inj in Heq. now subst.
        * apply Forall_firstn. constructor.
          -- exists c1. split; [|reflexivity]. apply in_or_app. right. now left.
          -- eapply Forall_impl; [|exact Hfrom].
             cbn. intros x (t & Ht & ->). exists t. split; [|reflexivity].
             apply in_or_app. now left. }
  intro Hclock. exact (proj1 (H Hclock)).
Qed.

Lemma history_ids_distinct_witness :
  NoDup (map id (moodHistory (run 0%Z newYearJournal initialState))).
Proof.
  apply (history_ids_distinct 0%Z newYearJournal).
  cbn. repeat constructor; cbn; intuition discriminate.
Defined.

(** X12. When a supportive text arrives, it is attached to the mood on
    display whichever entry it was requested for, while in the history it
    is attached by id: if the mood on display is a later entry with
    another id, the display shows the text of the earlier entry and the
    copy of the displayed entry in the history stays as it was. *)
Theorem content_lands_on_displayed_mood :
  forall (tz : Z) (s : State) (i : nat) (asked shown : MoodEntry) (c : string),
    nth_error (contentRequests s) i = Some asked ->
    currentMood s = Some shown ->
    id shown <> id asked ->
    let s' := step tz (ContentAnswered i (Parsed c)) s in
    currentMood s' = Some (withContent c shown)
    /\ (In shown (moodHistory s) -> In shown (moodHistory s'))
    /\ moodHistory s' = patchContent (id asked) c (moodHistory s).
Proof.
  intros tz s i asked shown c Hreq Hshown Hid s'. subst s'.
  cbn [step]. rewrite Hreq.
  rewrite generatePersonalizedContentResume_history.
  split; [|split; [|reflexivity]].
  - unfold generatePersonalizedContentResume. cbn. now rewrite Hshown.
  - intro Hin. cbn [moodHistory setContentRequests].
    unfold patchContent. apply in_map_iff. exists shown. split; [|assumption].
    destruct (String.eqb_spec (id shown) (id asked)); [contradiction | reflexivity].
Qed.

Lemma content_lands_on_displayed_mood_witness :
  let s :=
    run 0%Z
      [CallAnalyzeMood "first" TextInput;
       ClassifyAnswered 0 (Parsed (mkAnalysis "sad" (70 # 1)%Q)) 1000%Z 1000%Z;
       CallAnalyzeMood "second" TextInput;
       ClassifyAnswered 0 (Parsed (mkAnalysis "happy" (90 # 1)%Q)) 2000%Z 2000%Z]
      initialState in
  option_map (fun m => (text m, content m))
    (currentMood (step 0%Z (ContentAnswered 0 (Parsed "for the first"%string)) s))
  = Some ("second"%string, Some "for the first"%string).
Proof.
  intro s.
  destruct (@content_lands_on_displayed_mood 0%Z s 0
              (mkMoodEntry "1000" 1000%Z "first" "sad" (70 # 1)%Q None TextInput)
              (mkMoodEntry "2000" 2000%Z "second" "happy" (90 # 1)%Q None TextInput)
              "for the first"%string eq_refl eq_refl) as [H _].
  - discriminate.
  - rewrite H. reflexivity.
Defined.

(* ------------------------------------------------------------------ *)
(** ** The weekly effect and its guard *)

Lemma generateWeeklySummary_requests (tz now : Z) (s : State) :
  generateWeeklySummary tz now s = s
  \/ generateWeeklySummary tz now s = consoleError WeeklySummaryError s
  \/ exists d,
       generateWeeklySummary tz now s = setSummaryRequests (enqueue d) s
       /\ draftWeekStart d = getWeekStart tz (now - sevenDays)
       /\ draftWeekEnd d = (draftWeekStart d + sevenDays)%Z
       /\ draftEntries d
          = filter (inWeek (draftWeekStart d) (draftWeekEnd d)) (moodHistory s)
       /\ 3 <= List.length (draftEntries d)
       /\ draftDistribution d = moodCountsOf (draftEntries d)
       /\ dominantMoodOf (draftDistribution d) = Some (draftDominantMood d)
       /\ draftAverageConfidence d = averageConfidenceOf (draftEntries d).
Proof.
  unfold generateWeeklySummary.
  destruct (Nat.ltb_spec
              (List.length
                 (filter (inWeek (getWeekStart tz (now - sevenDays))
                            (getWeekStart tz (now - sevenDays) + sevenDays))
                    (moodHistory s))) 3) as [Hlt | Hge]; [now left|].
  destruct (dominantMoodOf _) as [m|] eqn:Hdom; [|right; now left].
  right. right. eexists. split; [reflexivity|].
  cbn. repeat split; try reflexivity; assumption.
Qed.



Lemma generateWeeklySummaryResume_store (d : SummaryDraft)
    (analysis : SummaryAnalysis) (s : State) :
  weeklySummaries (generateWeeklySummaryResume d (Parsed analysis) s)
  = appendSummary
      (mkWeeklySummary (draftWeekStart d) (draftWeekEnd d) (draftEntries d)
         (draftDominantMood d) (draftDistribution d) (draftAverageConfidence d)
         (analysisInsights analysis) (analysisRecommendations analysis))
      (weeklySummaries s).
Proof. reflexivity. Qed.

Lemma firstn_sorted_cons (ws : Z) (l : list Z) (n : nat) :
  StronglySorted Z.gt l ->
  (forall x, hd_error l = Some x -> (x < ws)%Z) ->
  StronglySorted Z.gt (firstn n (ws :: l)).
Proof.
  intros Hs Hhd. apply StronglySorted_firstn. constructor; [assumption|].
  destruct l as [|x l]; [constructor|].
  specialize (Hhd x eq_refl).
  apply StronglySorted_inv in Hs. destruct Hs as [_ Hx].
  constructor; [lia|].
  eapply Forall_impl; [|exact Hx]. cbn. intros; lia.
Qed.

Lemma getWeekStart_same_day (tz a b : Z) :
  dayNumber tz a = dayNumber tz b ->
  (getWeekStart tz b = getWeekStart tz a + (b - a))%Z.
Proof.
  intro Hday. rewrite !getWeekStart_eq. unfold getDay. rewrite Hday. lia.
Qed.

Lemma historyEffect_requests_same_day (tz effectClock callClock : Z) (s : State) :
  (effectClock <= callClock)%Z ->
  dayNumber tz effectClock = dayNumber tz callClock ->
  summaryRequests (historyEffect tz effectClock callClock s) = summaryRequests s
  \/ exists d,
       summaryRequests (historyEffect tz effectClock callClock s)
       = summaryRequests s ++ [d]
       /\ (forall l, hd_error (weeklySummaries s) = Some l ->
                     (weekStart l < draftWeekStart d)%Z).
Proof.
  intros Hle Hday. unfold historyEffect.
  destruct (3 <=? List.length (moodHistory s)) eqn:Hlen; [|now left].
  cbn [andb].
  destruct (match hd_error (weeklySummaries s) with
            | Some l => (weekStart l <? getWeekStart tz effectClock - sevenDays)%Z
            | None => true
            end) eqn:Hguard; [|now left].
  destruct (generateWeeklySummary_requests tz callClock s)
    as [-> | [-> | (d & -> & Hstart & _)]]; [now left | now left |].
  right. exists d. split; [reflexivity|].
  intros l Hl. rewrite Hl in Hguard. apply Z.ltb_lt in Hguard.
  rewrite Hstart, getWeekStart_previous_week.
  rewrite (getWeekStart_same_day tz effectClock callClock Hday). lia.
Qed.

(** X14. The effect reads the clock twice, once for its guard and once
    inside [generateWeeklySummary].  When the two readings are taken in
    this order on the same local day, no summary request waits and the
    stored summaries have strictly decreasing week starts from the newest
    on, a run of the effect followed at once by the answer of the gateway
    keeps them strictly decreasing: the effect alone, answered before
    anything else happens, stores no week start twice. *)
Theorem effect_keeps_week_starts_decreasing :
  forall (tz effectClock callClock : Z) (answer : Answer SummaryAnalysis)
         (s : State),
    (effectClock <= callClock)%Z ->
    dayNumber tz effectClock = dayNumber tz callClock ->
    summaryRequests s = [] ->
    StronglySorted Z.gt (map weekStart (weeklySummaries s)) ->
    StronglySorted Z.gt
      (map weekStart
         (weeklySummaries
            (run tz [HistoryChanged effectClock callClock;
                     SummaryAnswered 0 answer] s))).
Proof.
  intros tz effectClock callClock answer s Hle Hday Hnone Hsorted.
  unfold run. cbn [fold_left].
  change (step tz (HistoryChanged effectClock callClock) s)
    with (historyEffect tz effectClock callClock s).
  set (s1 := historyEffect tz effectClock callClock s).
  assert (Hstore : weeklySummaries s1 = weeklySummaries s).
  { subst s1. unfold historyEffect.
    destruct (_ && _); [|reflexivity].
    destruct (generateWeeklySummary_requests tz callClock s)
      as [-> | [-> | (d & -> & _)]]; reflexivity. }
  destruct (historyEffect_requests_same_day tz s Hle Hday)
    as [Hsame | (d & Hreq & Hnewer)]; fold s1 in Hsame || fold s1 in Hreq.
  - cbn [step]. rewrite Hsame, Hnone. cbn [nth_error].
    now rewrite Hstore.
  - cbn [step]. rewrite Hreq, Hnone. cbn [app nth_error].
    destruct answer as [| |analysis];
      [cbn; now rewrite Hstore | cbn; now rewrite Hstore |].
    rewrite generateWeeklySummaryResume_store.
    cbn [weeklySummaries setSummaryRequests]. rewrite Hstore.
    unfold appendSummary, Js.slice0. rewrite <- firstn_map. cbn [map weekStart].
    apply firstn_sorted_cons; [assumption|].
    intros x Hx. destruct (weeklySummaries s) as [|l rest] eqn:Hl; [discriminate|].
    cbn in Hx. injection Hx as <-. now apply Hnewer.
Qed.

Lemma effect_keeps_week_starts_decreasing_witness :
  map weekStart (weeklySummaries (run 0%Z januaryJournal initialState))
  = [1704016800000%Z]
  /\ StronglySorted Z.gt
       (map weekStart
          (weeklySummaries
             (run 0%Z [HistoryChanged 1705320000000 1705320000001;
                       SummaryAnswered 0 sampleSummaryAnswer]
                (run 0%Z januaryJournal initialState))))
  /\ map weekStart
       (weeklySummaries
          (run 0%Z [HistoryChanged 1705320000000 1705320000001;
                    SummaryAnswered 0 sampleSummaryAnswer]
             (run 0%Z januaryJournal initialState)))
     = [1704628800001; 1704016800000]%Z.
Proof.
  split; [vm_compute; reflexivity|]. split; [|vm_compute; reflexivity].
  apply (@effect_keeps_week_starts_decreasing 0%Z 1705320000000%Z 1705320000001%Z
           sampleSummaryAnswer (run 0%Z januaryJournal initialState)).
  - lia.
  - vm_compute. reflexivity.
  - vm_compute. reflexivity.
  - vm_compute. repeat constructor.
Defined.

(* ------------------------------------------------------------------ *)
(** ** What every stored summary and every request looks like *)

Lemma filter_inWeek_bounds (ws we : Z) (h : list MoodEntry) :
  Forall (fun e => (ws <= timestamp e < we)%Z) (filter (inWeek ws we) h).
Proof.
  rewrite Forall_forall. intros e He.
  now apply inWeek_filter in He.
Qed.

Lemma generateWeeklySummary_wellFormed (tz now : Z) (s : State) :
  Forall (wellFormedSummary tz) (weeklySummaries s)
  /\ Forall (wellFormedDraft tz) (summaryRequests s) ->
  Forall (wellFormedSummary tz) (weeklySummaries (generateWeeklySummary tz now s))
  /\ Forall (wellFormedDraft tz) (summaryRequests (generateWeeklySummary tz now s)).
Proof.
  intros [Hstore Hwait].
  destruct (generateWeeklySummary_requests tz now s)
    as [-> | [-> | (d & -> & Hstart & Hend & Hentries & _ & Hdist & Hdom & Havg)]];
    [now split | now split |].
  split; [exact Hstore|]. cbn.
  apply Forall_enqueue; [assumption|].
  unfold wellFormedDraft, wellFormedWeek.
  split; [exact Hend|]. split.
  - rewrite Hstart. apply getWeekStart_sunday.
  - split; [rewrite Hentries; apply filter_inWeek_bounds|].
    intros _. now split.
Qed.

Lemma step_wellFormed (tz : Z) (e : Event) (s : State) :
  Forall (wellFormedSummary tz) (weeklySummaries s)
  /\ Forall (wellFormedDraft tz) (summaryRequests s) ->
  Forall (wellFormedSummary tz) (weeklySummaries (step tz e s))
  /\ Forall (wellFormedDraft tz) (summaryRequests (step tz e s)).
Proof.
  intros Hs. pose proof Hs as [Hstore Hwait].
  destruct e as [v | input method | i answer c1 c2 | i answer | | c1 c2 |
                 | i answer | now | i answer]; cbn [step].
  - exact Hs.
  - unfold analyzeMood. destruct (Js.trimIsEmpty input); exact Hs.
  - destruct (nth_error (classifyRequests s) i) as [[input method]|]; [|exact Hs].
    unfold analyzeMoodResume. destruct answer; exact Hs.
  - destruct (nth_error (contentRequests s) i) as [moodEntry|]; [|exact Hs].
    unfold generatePersonalizedContentResume. destruct answer; exact Hs.
  - unfold historyLengthEffect, generatePatternInsights.
    destruct (5 <=? _); [|exact Hs].
    destruct (isGeneratingInsights s); exact Hs.
  - unfold historyEffect.
    destruct (_ && _); [|exact Hs].
    now apply generateWeeklySummary_wellFormed.
  - unfold generatePatternInsights.
    destruct (isGeneratingInsights s); exact Hs.
  - destruct (nth_error (insightRequests s) i) as [context|]; [|exact Hs].
    unfold generatePatternInsightsResume. destruct answer as [| |[found|]]; exact Hs.
  - now apply generateWeeklySummary_wellFormed.
  - destruct (nth_error (summaryRequests s) i) as [draft|] eqn:Hreq; [|exact Hs].
    pose proof (Forall_nth_error _ Hwait Hreq) as Hdraft.
    destruct answer as [| |analysis].
    + split; [exact Hstore | now apply Forall_dropNth].
    + split; [exact Hstore | now apply Forall_dropNth].
    + rewrite generateWeeklySummaryResume_store.
      split.
      * unfold appendSummary. apply Forall_slice0.
        constructor; [exact Hdraft | exact Hstore].
      * cbn. now apply Forall_dropNth.
Qed.

(** X15. From a fresh store, after every run of events every stored
    summary (and every summary that waits for the gateway) covers exactly
    seven days from a Sunday and holds only entries whose timestamp lies in
    that half-open week; when none of the moods of its entries is a name
    inherited from [Object.prototype], it carries the distribution and the
    dominant mood counted from those same entries. *)
Theorem stored_summaries_well_formed :
  forall (tz : Z) (events : list Event),
    Forall
      (fun sm =>
         weekEnd sm = (weekStart sm + sevenDays)%Z
         /\ getDay tz (weekStart sm) = 0%Z
         /\ Forall (fun e => (weekStart sm <= timestamp e < weekEnd sm)%Z) (entries sm)
         /\ (Forall (fun e => Js.isObjectPrototypeName (mood e) = false) (entries sm) ->
             moodDistribution sm = moodCountsOf (entries sm)
             /\ dominantMoodOf (moodDistribution sm) = Some (dominantMood sm)))
      (weeklySummaries (run tz events initialState))
    /\ Forall (wellFormedDraft tz) (summaryRequests (run tz events initialState)).
Proof.
  intros tz events.
  apply (run_invariant tz
           (fun s => Forall (wellFormedSummary tz) (weeklySummaries s)
                     /\ Forall (wellFormedDraft tz) (summaryRequests s))).
  - split; constructor.
  - intros e s. apply step_wellFormed.
Qed.

Lemma stored_summaries_well_formed_witness :
  List.length (weeklySummaries (run 0%Z januaryJournal initialState)) = 1
  /\ Forall
       (fun sm =>
          moodDistribution sm = moodCountsOf (entries sm)
          /\ dominantMoodOf (moodDistribution sm) = Some (dominantMood sm))
       (weeklySummaries (run 0%Z januaryJournal initialState)).
Proof.
  split; [vm_compute; reflexivity|].
  destruct (stored_summaries_well_formed 0%Z januaryJournal) as [H _].
  remember (weeklySummaries (run 0%Z januaryJournal initialState)) as store eqn:E.
  vm_compute in E. subst store.
  apply Forall_inv in H. destruct H as (_ & _ & _ & H).
  constructor; [|constructor].
  apply H. repeat constructor.
Defined.

(* ------------------------------------------------------------------ *)
(** ** The prompt of the pattern-insight request *)

Lemma substring_length (n : nat) (s : string) :
  String.length (substring 0 n s) <= n.
Proof.
  revert s. induction n as [|n IH]; intro s.
  - destruct s; cbn; lia.
  - destruct s as [|c s]; cbn; [lia|].
    specialize (IH s). lia.
Qed.

Lemma generatePatternInsights_bounded (s : State) :
  Forall boundedContext (insightRequests s) ->
  Forall boundedContext (insightRequests (generatePatternInsights s)).
Proof.
  intro Hs. unfold generatePatternInsights.
  destruct (isGeneratingInsights s); [exact Hs|].
  cbn [insightRequests setInsightRequests setIsGeneratingInsights moodHistory].
  apply Forall_enqueue; [assumption|].
  unfold boundedContext. cbn [contextEntries contextCounts].
  rewrite length_map. split; [apply slice0_length|]. split.
  - rewrite Forall_forall. intros shown Hin.
    apply in_map_iff in Hin. destruct Hin as (e & <- & _). cbn [snd].
    apply substring_length.
  - intros _. apply moodCountsOf_total.
Qed.

Lemma step_bounded (tz : Z) (e : Event) (s : State) :
  Forall boundedContext (insightRequests s) ->
  Forall boundedContext (insightRequests (step tz e s)).
Proof.
  intros Hs.
  destruct e as [v | input method | i answer c1 c2 | i answer | | c1 c2 |
                 | i answer | now | i answer]; cbn [step].
  - exact Hs.
  - unfold analyzeMood. destruct (Js.trimIsEmpty input); exact Hs.
  - destruct (nth_error (classifyRequests s) i) as [[input method]|]; [|exact Hs].
    unfold analyzeMoodResume. destruct answer; exact Hs.
  - destruct (nth_error (contentRequests s) i) as [moodEntry|]; [|exact Hs].
    unfold generatePersonalizedContentResume. destruct answer; exact Hs.
  - unfold historyLengthEffect.
    destruct (5 <=? _); [|exact Hs].
    now apply generatePatternInsights_bounded.
  - unfold historyEffect.
    destruct (_ && _); [|exact Hs].
    destruct (generateWeeklySummary_requests tz c2 s)
      as [-> | [-> | (d & -> & _)]]; exact Hs.
  - now apply generatePatternInsights_bounded.
  - destruct (nth_error (insightRequests s) i) as [context|]; [|exact Hs].
    destruct (generatePatternInsightsResume_clears answer
                (setInsightRequests (dropNth i) s)) as [_ Hleft].
    rewrite Hleft. cbn. now apply Forall_dropNth.
  - destruct (generateWeeklySummary_requests tz now s)
      as [-> | [-> | (d & -> & _)]]; exact Hs.
  - destruct (nth_error (summaryRequests s) i) as [draft|]; [|exact Hs].
    unfold generateWeeklySummaryResume. destruct answer; exact Hs.
Qed.

(** X16. Every pattern-insight request sent to the gateway shows at most
    20 entries, each with at most 100 characters of its text; when none of
    the moods shown is a name inherited from [Object.prototype], the mood
    counts sent along add up to the number of entries shown. *)
Theorem insight_requests_bounded :
  forall (tz : Z) (events : list Event),
    Forall
      (fun c =>
         List.length (contextEntries c) <= 20
         /\ Forall (fun shown => String.length (snd shown) <= 100) (contextEntries c)
         /\ (Forall (fun shown => Js.isObjectPrototypeName (fst (fst shown)) = false)
               (contextEntries c) ->
             totalCount (contextCounts c) = List.length (contextEntries c)))
      (insightRequests (run tz events initialState)).
Proof.
  intros tz events.
  apply (run_invariant tz (fun s => Forall boundedContext (insightRequests s))).
  - constructor.
  - intros e s. apply step_bounded.
Qed.

Lemma insight_requests_bounded_witness :
  map (fun c => map (fun shown => fst (fst shown)) (contextEntries c))
    (insightRequests (run 0%Z (christmasJournal ++ newYearJournal) initialState))
  = [["calm"; "sad"; "calm"; "happy"; "calm"]]%string
  /\ Forall (fun c => totalCount (contextCounts c) = 5)
       (insightRequests (run 0%Z (christmasJournal ++ newYearJournal) initialState)).
Proof.
  split; [vm_compute; reflexivity|].
  pose proof (insight_requests_bounded 0%Z (christmasJournal ++ newYearJournal)) as H.
  remember (insightRequests (run 0%Z (christmasJournal ++ newYearJournal) initialState))
    as requests eqn:E.
  vm_compute in E. subst requests.
  apply Forall_inv in H. destruct H as (_ & _ & H).
  constructor; [|constructor].
  rewrite H; [reflexivity | repeat constructor].
Defined.

(* ------------------------------------------------------------------ *)
(** ** The analysing flag *)

Lemma step_analyzing (tz : Z) (e : Event) (s : State) :
  (isAnalyzing s = true -> classifyRequests s <> []) ->
  isAnalyzing (step tz e s) = true -> classifyRequests (step tz e s) <> [].
Proof.
  intros Hs.
  destruct e as [v | input method | i answer c1 c2 | i answer | | c1 c2 |
                 | i answer | now | i answer]; cbn [step].
  - exact Hs.
  - unfold analyzeMood. destruct (Js.trimIsEmpty input); [exact Hs|].
    intros _. cbn. unfold enqueue. now destruct (classifyRequests s).
  - destruct (nth_error (classifyRequests s) i) as [[input method]|]; [|exact Hs].
    unfold analyzeMoodResume. destruct answer; cbn; discriminate.
  - destruct (nth_error (contentRequests s) i) as [moodEntry|]; [|exact Hs].
    unfold generatePersonalizedContentResume. destruct answer; exact Hs.
  - unfold historyLengthEffect, generatePatternInsights.
    destruct (5 <=? _); [|exact Hs].
    destruct (isGeneratingInsights s); exact Hs.
  - unfold historyEffect.
    destruct (_ && _); [|exact Hs].
    destruct (generateWeeklySummary_requests tz c2 s)
      as [-> | [-> | (d & -> & _)]]; exact Hs.
  - unfold generatePatternInsights.
    destruct (isGeneratingInsights s); exact Hs.
  - destruct (nth_error (insightRequests s) i) as [context|]; [|exact Hs].
    unfold generatePatternInsightsResume. destruct answer as [| |[found|]]; exact Hs.
  - destruct (generateWeeklySummary_requests tz now s)
      as [-> | [-> | (d & -> & _)]]; exact Hs.
  - destruct (nth_error (summaryRequests s) i) as [draft|]; [|exact Hs].
    unfold generateWeeklySummaryResume. destruct answer; exact Hs.
Qed.

(** X17. Whenever the analysing flag is set, a classification request
    really waits for the gateway: the flag is set only together with a
    request, and every answer, good or bad, clears it. *)
Theorem analyzing_means_request_waits :
  forall (tz : Z) (events : list Event),
    isAnalyzing (run tz events initialState) = true ->
    classifyRequests (run tz events initialState) <> [].
Proof.
  intros tz events.
  apply (run_invariant tz
           (fun s => isAnalyzing s = true -> classifyRequests s <> [])).
  - discriminate.
  - intros e s. apply step_analyzing.
Qed.

Lemma analyzing_means_request_waits_witness :
  classifyRequests (run 0%Z [CallAnalyzeMood "rough day" TextInput] initialState) <> [].
Proof.
  apply (analyzing_means_request_waits 0%Z [CallAnalyzeMood "rough day" TextInput]).
  reflexivity.
Defined.

(* ------------------------------------------------------------------ *)
(** ** Runs through the page *)

Lemma pageRun_invariant (tz : Z) (P : State -> Prop) :
  P initialState ->
  (forall e s, P s -> P (pageStep tz e s)) ->
  forall events, P (pageRun tz events initialState).
Proof.
  intros Hinit Hstep events.
  induction events as [|e events IH] using rev_ind.
  - exact Hinit.
  - rewrite pageRun_snoc. now apply Hstep.
Qed.

(** What the page keeps true: one classification at a time, requests and
    entries made from typed text only, and no validation toast. *)
Definition pageInvariant (s : State) : Prop :=
  List.length (classifyRequests s) = (if isAnalyzing s then 1 else 0)
  /\ Forall (fun r => snd r = TextInput) (classifyRequests s)
  /\ Forall (fun e => inputMethod e = TextInput) (moodHistory s)
  /\ ~ In EnterSomeText (toasts s).

Lemma patchContent_methods (i c : string) (h : list MoodEntry) :
  Forall (fun e => inputMethod e = TextInput) h ->
  Forall (fun e => inputMethod e = TextInput) (patchContent i c h).
Proof.
  intro H. unfold patchContent. rewrite Forall_forall in *.
  intros e He. apply in_map_iff in He. destruct He as (e0 & <- & Hin).
  destruct (String.eqb (id e0) i); cbn; now apply H.
Qed.

Lemma pageStep_invariant (tz : Z) (e : Event) (s : State) :
  pageInvariant s -> pageInvariant (pageStep tz e s).
Proof.
  intros Hs. pose proof Hs as (Hone & Hreqs & Hhist & Htoast).
  unfold pageStep.
  destruct (enabled e s) eqn:Hen; [|exact Hs].
  destruct e as [v | input method | i answer c1 c2 | i answer | | c1 c2 |
                 | i answer | now | i answer]; cbn [step].
  - exact Hs.
  - cbn [enabled] in Hen.
    apply andb_true_iff in Hen. destruct Hen as [Hen Hfree].
    apply andb_true_iff in Hen. destruct Hen as [Hinput Hmethod].
    apply String.eqb_eq in Hinput. subst input.
    apply negb_true_iff, orb_false_iff in Hfree. destruct Hfree as [Hidle Hblank].
    unfold analyzeMood. rewrite Hblank.
    rewrite Hidle in Hone.
    destruct (classifyRequests s) as [|r rs] eqn:Hr; [|discriminate Hone].
    unfold pageInvariant. cbn. rewrite Hr. cbn.
    repeat split; try assumption.
    constructor; [|constructor]. cbn. now destruct method.
  - destruct (nth_error (classifyRequests s) i) as [[input method]|] eqn:Hreq;
      [|exact Hs].
    assert (Hmethod : method = TextInput)
      by exact (Forall_nth_error _ Hreqs Hreq).
    assert (Hleft : dropNth i (classifyRequests s) = []).
    { pose proof (dropNth_length _ _ Hreq) as Hlen.
      destruct (dropNth i (classifyRequests s)); [reflexivity|].
      destruct (isAnalyzing s); cbn in Hlen; lia. }
    unfold pageInvariant.
    destruct answer as [| |a].
    + cbn. rewrite Hleft. repeat split; try assumption; try constructor.
      intros [H | H]; [discriminate H | contradiction].
    + cbn. rewrite Hleft. repeat split; try assumption; try constructor.
      intros [H | H]; [discriminate H | contradiction].
    + rewrite analyzeMoodResume_history.
      cbn [classifyRequests toasts analyzeMoodResume isAnalyzing setIsAnalyzing toast
           generatePersonalizedContent setContentRequests setCurrentInput
           setMoodHistory setCurrentMood setClassifyRequests moodHistory].
      rewrite Hleft. split; [reflexivity|]. split; [constructor|]. split.
      * unfold appendEntry. apply Forall_slice0. constructor; [exact Hmethod | exact Hhist].
      * intros [H | H]; [discriminate H | contradiction].
  - destruct (nth_error (contentRequests s) i) as [moodEntry|]; [|exact Hs].
    destruct answer as [| |c]; try exact Hs.
    unfold pageInvariant. rewrite generatePersonalizedContentResume_history.
    cbn [classifyRequests toasts generatePersonalizedContentResume isAnalyzing
         setMoodHistory setCurrentMood setContentRequests moodHistory].
    repeat split; try assumption. now apply patchContent_methods.
  - unfold historyLengthEffect, generatePatternInsights.
    destruct (5 <=? _); [|exact Hs].
    destruct (isGeneratingInsights s); exact Hs.
  - unfold historyEffect.
    destruct (_ && _); [|exact Hs].
    destruct (generateWeeklySummary_requests tz c2 s)
      as [-> | [-> | (d & -> & _)]]; exact Hs.
  - unfold generatePatternInsights.
    destruct (isGeneratingInsights s); exact Hs.
  - destruct (nth_error (insightRequests s) i) as [context|]; [|exact Hs].
    unfold generatePatternInsightsResume. destruct answer as [| |[found|]]; exact Hs.
  - destruct (generateWeeklySummary_requests tz now s)
      as [-> | [-> | (d & -> & _)]]; exact Hs.
  - destruct (nth_error (summaryRequests s) i) as [draft|]; [|exact Hs].
    destruct answer as [| |analysis]; try exact Hs.
    unfold pageInvariant. cbn. repeat split; try assumption.
    intros [H | H]; [discriminate H | contradiction].
Qed.

Lemma pageRun_pageInvariant (tz : Z) (events : list Event) :
  pageInvariant (pageRun tz events initialState).
Proof.
  apply pageRun_invariant; [|apply pageStep_invariant].
  unfold pageInvariant. cbn. repeat split; try constructor. tauto.
Qed.

(** X18. When [analyzeMood] is only called from the button of the page,
    which is disabled while [isAnalyzing] is set, at most one
    classification request waits at any time, and one waits exactly when
    the flag is set. *)
Theorem page_one_analysis_at_a_time :
  forall (tz : Z) (events : list Event),
    List.length (classifyRequests (pageRun tz events initialState)) <= 1
    /\ (isAnalyzing (pageRun tz events initialState) = true
        <-> List.length (classifyRequests (pageRun tz events initialState)) = 1).
Proof.
  intros tz events.
  destruct (pageRun_pageInvariant tz events) as (Hone & _).
  destruct (isAnalyzing (pageRun tz events initialState)); rewrite Hone.
  - split; [lia | tauto].
  - split; [lia|]. split; [discriminate | lia].
Qed.

(** X19. Through the page the validation of [analyzeMood] never fires:
    the button is disabled for a blank text, so the toast asking to enter
    some text is never raised; and since the button passes no input
    method, every entry of the history is a text entry. *)
Theorem page_never_submits_blank_text :
  forall (tz : Z) (events : list Event),
    ~ In EnterSomeText (toasts (pageRun tz events initialState))
    /\ Forall (fun e => inputMethod e = TextInput)
         (moodHistory (pageRun tz events initialState)).
Proof.
  intros tz events.
  destruct (pageRun_pageInvariant tz events) as (_ & _ & Hhist & Htoast).
  now split.
Qed.

Lemma generatePatternInsights_five (s : State) :
  5 <= List.length (moodHistory s) ->
  Forall (fun c => 5 <= List.length (contextEntries c)) (insightRequests s) ->
  Forall (fun c => 5 <= List.length (contextEntries c))
    (insightRequests (generatePatternInsights s)).
Proof.
  intros Hlen Hs. unfold generatePatternInsights.
  destruct (isGeneratingInsights s); [exact Hs|].
  cbn [insightRequests setInsightRequests setIsGeneratingInsights moodHistory].
  apply Forall_enqueue; [assumption|].
  cbn [contextEntries]. rewrite length_map. unfold Js.slice0.
  rewrite length_firstn. lia.
Qed.

Lemma pageStep_five (tz : Z) (e : Event) (s : State) :
  Forall (fun c => 5 <= List.length (contextEntries c)) (insightRequests s) ->
  Forall (fun c => 5 <= List.length (contextEntries c))
    (insightRequests (pageStep tz e s)).
Proof.
  intros Hs. unfold pageStep.
  destruct (enabled e s) eqn:Hen; [|exact Hs].
  destruct e as [v | input method | i answer c1 c2 | i answer | | c1 c2 |
                 | i answer | now | i answer]; cbn [step].
  - exact Hs.
  - unfold analyzeMood. destruct (Js.trimIsEmpty input); exact Hs.
  - destruct (nth_error (classifyRequests s) i) as [[input method]|]; [|exact Hs].
    unfold analyzeMoodResume. destruct answer; exact Hs.
  - destruct (nth_error (contentRequests s) i) as [moodEntry|]; [|exact Hs].
    unfold generatePersonalizedContentResume. destruct answer; exact Hs.
  - unfold historyLengthEffect.
    destruct (Nat.leb_spec 5 (List.length (moodHistory s))); [|exact Hs].
    now apply generatePatternInsights_five.
  - unfold historyEffect.
    destruct (_ && _); [|exact Hs].
    destruct (generateWeeklySummary_requests tz c2 s)
      as [-> | [-> | (d & -> & _)]]; exact Hs.
  - cbn [enabled] in Hen. apply andb_true_iff in Hen. destruct Hen as [Hlen _].
    apply Nat.leb_le in Hlen. now apply generatePatternInsights_five.
  - destruct (nth_error (insightRequests s) i) as [context|]; [|exact Hs].
    destruct (generatePatternInsightsResume_clears answer
                (setInsightRequests (dropNth i) s)) as [_ Hleft].
    rewrite Hleft. cbn. now apply Forall_dropNth.
  - destruct (generateWeeklySummary_requests tz now s)
      as [-> | [-> | (d & -> & _)]]; exact Hs.
  - destruct (nth_error (summaryRequests s) i) as [draft|]; [|exact Hs].
    unfold generateWeeklySummaryResume. destruct answer; exact Hs.
Qed.

(** X20. Through the page a pattern-insight request is only sent once the
    history holds 5 entries: the effect tests it and the two buttons are
    rendered only then, so every request shows at least 5 entries. *)
Theorem page_insights_need_five_entries :
  forall (tz : Z) (events : list Event),
    Forall (fun c => 5 <= List.length (contextEntries c))
      (insightRequests (pageRun tz events initialState)).
Proof.
  intros tz events.
  apply (pageRun_invariant tz
           (fun s => Forall (fun c => 5 <= List.length (contextEntries c))
                       (insightRequests s))).
  - constructor.
  - intros e s. apply pageStep_five.
Qed.

(* ------------------------------------------------------------------ *)
(** ** The chat demo *)

Lemma chat_step_timers (e : Chat.Event) (c : Chat.State) :
  Chat.timeouts c = (if Chat.isProcessing c then 1 else 0) ->
  Chat.timeouts (Chat.step e c) = (if Chat.isProcessing (Chat.step e c) then 1 else 0).
Proof.
  intro Hc. destruct e; cbn [Chat.step].
  - exact Hc.
  - destruct (Chat.isProcessing c) eqn:Hp; cbn [orb]; [now rewrite Hp|].
    unfold Chat.handleSendMessage.
    destruct (Js.trimIsEmpty (Chat.message c)); [now rewrite Hp|].
    cbn. now rewrite Hc.
  - destruct (Chat.timeouts c) as [|n] eqn:Hn.
    + now rewrite Hn.
    + cbn. rewrite Hn. cbn.
      destruct (Chat.isProcessing c); [|discriminate Hc].
      now injection Hc as ->.
Qed.

(** X21. In the chat demo, whose send button is disabled while a message
    is processed, at most one timer runs at any time, and one runs exactly
    when [isProcessing] is set; a click on a blank message sets none; and
    when the timer fires the message is emptied, whatever was typed in the
    meantime. *)
Theorem chat_one_timer :
  forall (events : list Chat.Event),
    let c := Chat.run events Chat.initialState in
    Chat.timeouts c = (if Chat.isProcessing c then 1 else 0)
    /\ (Js.trimIsEmpty (Chat.message c) = true -> Chat.step Chat.SendClicked c = c)
    /\ (Chat.isProcessing c = true ->
        forall typed,
          Chat.step Chat.TimeoutFired (Chat.step (Chat.Typed typed) c)
          = Chat.mkState EmptyString false 0).
Proof.
  intros events c.
  assert (Hc : Chat.timeouts c = (if Chat.isProcessing c then 1 else 0)).
  { subst c. induction events as [|e events IH] using rev_ind; [reflexivity|].
    unfold Chat.run in *. rewrite fold_left_app. cbn [fold_left].
    now apply chat_step_timers. }
  split; [exact Hc|]. split.
  - intro Hblank. cbn [Chat.step]. unfold Chat.handleSendMessage.
    rewrite Hblank. now destruct (Chat.isProcessing c).
  - intros Hp typed. rewrite Hp in Hc. cbn. now rewrite Hc.
Qed.

Lemma chat_one_timer_witness :
  Chat.step Chat.TimeoutFired
    (Chat.step (Chat.Typed "one more thing")
       (Chat.run [Chat.Typed "hello"; Chat.SendClicked] Chat.initialState))
  = Chat.mkState EmptyString false 0.
Proof.
  apply (chat_one_timer [Chat.Typed "hello"; Chat.SendClicked]).
  reflexivity.
Defined.

(* ------------------------------------------------------------------ *)
(** ** A whole submission *)

Lemma In_firstn_In (A : Type) (n : nat) (l : list A) (x : A) :
  In x (firstn n l) -> In x l.
Proof.
  intro H. rewrite <- (firstn_skipn n l). apply in_or_app. now left.
Qed.

(** X22. A submission that runs to its end with nothing else waiting: a
    text of ASCII characters that is not blank is sent, the gateway answers
    with a classification, then with the supportive text.  If the id of the new
    entry is not yet in the history, the history then starts with the new
    entry holding the text, followed by the first 49 of the old entries
    unchanged; the same entry is on display, the analysing flag is clear
    and no request is left. *)
Theorem submission_round_trip :
  forall (tz : Z) (s : State) (input : string) (method : InputMethod)
         (a : Analysis) (c : string) (idClock tsClock : Z),
    classifyRequests s = [] ->
    contentRequests s = [] ->
    isAsciiText input = true ->
    Js.trimIsEmpty input = false ->
    ~ In (Js.toString idClock) (map id (moodHistory s)) ->
    let s' :=
      run tz [CallAnalyzeMood input method;
              ClassifyAnswered 0 (Parsed a) idClock tsClock;
              ContentAnswered 0 (Parsed c)] s in
    let moodEntry :=
      mkMoodEntry (Js.toString idClock) tsClock input (analysisMood a)
        (analysisConfidence a) (Some c) method in
    moodHistory s' = moodEntry :: firstn 49 (moodHistory s)
    /\ currentMood s' = Some moodEntry
    /\ isAnalyzing s' = false
    /\ classifyRequests s' = []
    /\ contentRequests s' = [].
Proof.
  intros tz s input method a c idClock tsClock Hclassify Hcontent _ Hblank Hfresh
         s' moodEntry.
  subst s' moodEntry. unfold run. cbn [fold_left].
  set (s1 := step tz (CallAnalyzeMood input method) s).
  assert (H1 : classifyRequests s1 = [(input, method)]
               /\ contentRequests s1 = [] /\ moodHistory s1 = moodHistory s).
  { subst s1. cbn [step]. unfold analyzeMood. rewrite Hblank. cbn.
    now rewrite Hclassify, Hcontent. }
  destruct H1 as (Hr1 & Hc1 & Hh1).
  set (s2 := step tz (ClassifyAnswered 0 (Parsed a) idClock tsClock) s1).
  set (entry := mkMoodEntry (Js.toString idClock) tsClock input (analysisMood a)
                  (analysisConfidence a) None method).
  assert (H2 : classifyRequests s2 = [] /\ contentRequests s2 = [entry]
               /\ moodHistory s2 = appendEntry entry (moodHistory s)
               /\ currentMood s2 = Some entry /\ isAnalyzing s2 = false).
  { subst s2. cbn [step]. rewrite Hr1. cbn [nth_error].
    rewrite analyzeMoodResume_history.
    cbn [classifyRequests contentRequests currentMood isAnalyzing analyzeMoodResume
         setIsAnalyzing toast generatePersonalizedContent setContentRequests
         setCurrentInput setMoodHistory setCurrentMood setClassifyRequests moodHistory].
    rewrite Hr1, Hc1, Hh1. repeat split; reflexivity. }
  destruct H2 as (Hr2 & Hc2 & Hh2 & Hm2 & Ha2).
  cbn [step]. rewrite Hc2. cbn [nth_error].
  rewrite generatePersonalizedContentResume_history.
  cbn [classifyRequests contentRequests currentMood isAnalyzing
       generatePersonalizedContentResume setMoodHistory setCurrentMood
       setContentRequests moodHistory].
  rewrite Hr2, Hc2, Hh2, Hm2, Ha2.
  split; [|repeat split; reflexivity].
  rewrite appendEntry_cons. cbn [patchContent map id entry].
  rewrite String.eqb_refl. f_equal.
  apply patchContent_absent. intro Hin. apply Hfresh.
  apply in_map_iff in Hin. destruct Hin as (e & He & Hin).
  apply in_map_iff. exists e. split; [exact He|].
  eapply In_firstn_In. exact Hin.
Qed.

Lemma submission_round_trip_witness :
  map (fun e => (text e, mood e, content e))
    (moodHistory
       (run 0%Z [CallAnalyzeMood "I aced my exam today!" TextInput;
                 ClassifyAnswered 0 (Parsed (mkAnalysis "excited" (92 # 1)%Q))
                   1000%Z 1000%Z;
                 ContentAnswered 0 (Parsed "Well done."%string)] initialState))
  = [("I aced my exam today!"%string, "excited"%string, Some "Well done."%string)].
Proof.
  destruct (@submission_round_trip 0%Z initialState "I aced my exam today!"%string
              TextInput (mkAnalysis "excited" (92 # 1)%Q) "Well done."%string
              1000%Z 1000%Z eq_refl eq_refl eq_refl eq_refl) as [H _].
  - cbn. tauto.
  - rewrite H. reflexivity.
Defined.

(* ------------------------------------------------------------------ *)
(** ** A summary request is never lost before the gateway *)

Lemma insertIndexKey_length (V : Type) (p : N * (string * V))
    (l : list (N * (string * V))) :
  List.length (Js.insertIndexKey p l) = S (List.length l).
Proof.
  induction l as [|q l IH]; [reflexivity|].
  cbn. destruct (fst p <=? fst q)%N; cbn; [reflexivity | now rewrite IH].
Qed.

Lemma entries_length (V : Type) (d : Js.object V) :
  List.length (Js.entries d) = List.length d.
Proof.
  unfold Js.entries. rewrite length_app, length_map.
  induction d as [|[k v] d IH]; [reflexivity|].
  unfold Js.indexProperties in *. cbn [fold_right filter fst].
  destruct (Js.arrayIndex k) as [n|] eqn:Hk.
  - assert (Hb : Js.isArrayIndex k = true)
      by (unfold Js.isArrayIndex; now rewrite Hk).
    rewrite Hb. cbn [negb]. rewrite insertIndexKey_length.
    cbn [List.length]. rewrite <- IH. lia.
  - assert (Hb : Js.isArrayIndex k = false)
      by (unfold Js.isArrayIndex; now rewrite Hk).
    rewrite Hb. cbn [negb List.length]. rewrite <- IH. lia.
Qed.

Lemma sortInsert_length (A : Type) (cmp : A -> A -> Z) (x : A) (l : list A) :
  List.length (Js.sortInsert cmp x l) = S (List.length l).
Proof.
  induction l as [|y l IH]; [reflexivity|].
  cbn. destruct (cmp x y <=? 0)%Z; cbn; [reflexivity | now rewrite IH].
Qed.

Lemma sort_length (A : Type) (cmp : A -> A -> Z) (l : list A) :
  List.length (Js.sort cmp l) = List.length l.
Proof.
  induction l as [|x l IH]; [reflexivity|].
  unfold Js.sort in *. cbn [fold_right]. rewrite sortInsert_length. cbn. now rewrite IH.
Qed.

Lemma dominantMoodOf_defined (es : list MoodEntry) :
  es <> [] -> exists m, dominantMoodOf (moodCountsOf es) = Some m.
Proof.
  intro Hne. unfold dominantMoodOf.
  destruct (Js.sort byCountDescending (Js.entries (moodCountsOf es))) as [|p l] eqn:Hs;
    [|eauto].
  exfalso.
  assert (Hlen : List.length (Js.sort byCountDescending (Js.entries (moodCountsOf es)))
                 = 0) by now rewrite Hs.
  rewrite sort_length, entries_length in Hlen.
  pose proof (moodCountsOf_total es) as Htotal.
  destruct (moodCountsOf es); [|discriminate Hlen].
  cbn in Htotal. destruct es; [congruence | discriminate Htotal].
Qed.

(** X23. For a history whose moods are not names inherited from
    [Object.prototype], [generateWeeklySummary] never fails on its own:
    with fewer than 3 entries in the week it does nothing, and otherwise it
    sends one request holding exactly the entries of the week, in the
    order of the history; it logs no error and raises no toast before the
    gateway answers. *)
Theorem generateWeeklySummary_sends_or_skips :
  forall (tz now : Z) (s : State),
    Forall (fun e => Js.isObjectPrototypeName (mood e) = false) (moodHistory s) ->
    let weekStart := getWeekStart tz (now - sevenDays) in
    let weekEntries :=
      filter (inWeek weekStart (weekStart + sevenDays)) (moodHistory s) in
    (List.length weekEntries < 3 -> generateWeeklySummary tz now s = s)
    /\ (3 <= List.length weekEntries ->
        exists d,
          generateWeeklySummary tz now s = setSummaryRequests (enqueue d) s
          /\ draftEntries d = weekEntries
          /\ draftWeekStart d = weekStart)
    /\ console (generateWeeklySummary tz now s) = console s
    /\ toasts (generateWeeklySummary tz now s) = toasts s.
Proof.
  intros tz now s _ weekStart weekEntries.
  unfold generateWeeklySummary. fold weekStart. fold weekEntries.
  destruct (Nat.ltb_spec (List.length weekEntries) 3) as [Hlt | Hge].
  - repeat split; try reflexivity. intro H. lia.
  - destruct (@dominantMoodOf_defined weekEntries) as [m Hm].
    { intro Hnil. rewrite Hnil in Hge. cbn in Hge. lia. }
    rewrite Hm. split; [intro H; lia|]. split; [|split; reflexivity].
    intros _. eexists. split; [reflexivity|]. split; reflexivity.
Qed.

Lemma generateWeeklySummary_sends_or_skips_witness :
  List.length
    (summaryRequests
       (generateWeeklySummary 0%Z 1704715200000%Z (run 0%Z newYearJournal initialState)))
  = 1.
Proof.
  destruct (@generateWeeklySummary_sends_or_skips 0%Z 1704715200000%Z
              (run 0%Z newYearJournal initialState))
    as (_ & H & _).
  - vm_compute. repeat constructor.
  - destruct H as (d & -> & _).
    + vm_compute. lia.
    + reflexivity.
Defined.
